(** * word2base64image: Word -> PDF -> stacked JPEG -> base64 data URL

    A shallow embedding of [word_to_base64image] (src/word2base64image.py)
    and the properties of its three stages: the two-backend document
    renderer, the page rasterizer and the image compositor.

    The function is effectful: it reads and writes the file system, prints
    to the console, spawns an external process and drives a COM server.
    Those effects are modelled by explicit state passing over a [World]
    (a file system and a chronological log of effects); the external
    collaborators (LibreOffice, Word, PyMuPDF, the JPEG encoder, [os.path])
    are the fields of an environment record [Env]. *)

From Stdlib Require Import ZArith List Bool Lia.
From Stdlib.Strings Require Import String Ascii Byte.
From stdpp Require Import gmap strings list fin_maps.

Local Open Scope string_scope.
Local Open Scope Z_scope.

(** ** [os.path]

    The source only uses [exists], [dirname], [basename], [splitext], [join]
    and [abspath]. Which implementation runs behind [os.path] depends on the
    host ([posixpath] or [ntpath]), so the program is written against the
    interface and [posixpath] is given as an instance. *)

Class PathOps := {
  dirname : string -> string;
  basename : string -> string;
  splitext : string -> string * string;
  join : string -> string -> string;
  abspath : string -> string
}.

Module posixpath.

Definition sep : ascii := "/"%char.
Definition extsep : ascii := "."%char.

Definition is_sep (c : ascii) : bool := Ascii.eqb c sep.

(** [rsplit p = (p[:i], p[i:])] with [i = p.rfind('/') + 1]. *)
Fixpoint rsplit (p : string) : string * string :=
  match p with
  | EmptyString => (EmptyString, EmptyString)
  | String c r =>
      let '(h, t) := rsplit r in
      match h with
      | String _ _ => (String c h, t)
      | EmptyString =>
          if is_sep c then (String c EmptyString, t) else (EmptyString, String c t)
      end
  end.

Fixpoint all_sep (s : string) : bool :=
  match s with
  | EmptyString => true
  | String c r => is_sep c && all_sep r
  end.

(** [s.rstrip('/')]. *)
Fixpoint rstrip_sep (s : string) : string :=
  match s with
  | EmptyString => EmptyString
  | String c r =>
      match rstrip_sep r with
      | EmptyString => if is_sep c then EmptyString else String c EmptyString
      | r' => String c r'
      end
  end.

Definition basename (p : string) : string := snd (rsplit p).

Definition dirname (p : string) : string :=
  let head := fst (rsplit p) in
  match head with
  | EmptyString => head
  | _ => if all_sep head then head else rstrip_sep head
  end.

(** [genericpath._splitext] on a name without separator: the extension
    starts at the last dot, unless only dots precede it. *)
Fixpoint rsplit_dot (s : string) : option (string * string) :=
  match s with
  | EmptyString => None
  | String c r =>
      match rsplit_dot r with
      | Some (root, ext) => Some (String c root, ext)
      | None => if Ascii.eqb c extsep then Some (EmptyString, s) else None
      end
  end.

Fixpoint all_dots (s : string) : bool :=
  match s with
  | EmptyString => true
  | String c r => Ascii.eqb c extsep && all_dots r
  end.

Definition splitext (p : string) : string * string :=
  let '(head, tail) := rsplit p in
  match rsplit_dot tail with
  | Some (root, ext) =>
      if all_dots root then (p, EmptyString) else (head ++ root, ext)
  | None => (p, EmptyString)
  end.

Fixpoint ends_with_sep (s : string) : bool :=
  match s with
  | EmptyString => false
  | String c EmptyString => is_sep c
  | String _ r => ends_with_sep r
  end.

Definition starts_with_sep (s : string) : bool :=
  match s with
  | String c _ => is_sep c
  | EmptyString => false
  end.

(** [posixpath.join] of two components. *)
Definition join (a b : string) : string :=
  if starts_with_sep b then b
  else if (String.eqb a EmptyString || ends_with_sep a)%bool then a ++ b
  else a ++ "/" ++ b.

End posixpath.

(** [abspath] depends on the working directory and is only reached on the
    Word COM path; the instance takes it from the caller. *)
Definition posix_ops (abspath : string -> string) : PathOps :=
  {| dirname := posixpath.dirname;
     basename := posixpath.basename;
     splitext := posixpath.splitext;
     join := posixpath.join;
     abspath := abspath |}.

(** ** Raster images (the part of PIL the source uses)

    An image is its size and its pixels; coordinates and sizes are Python
    integers. [getpixel] is only meaningful inside the image's box. *)

Definition RGB : Type := Z * Z * Z.

Definition white : RGB := (255, 255, 255).

Record Image := {
  width : Z;
  height : Z;
  getpixel : Z -> Z -> RGB
}.

(** [Image.new('RGB', (w, h), color)]. *)
Definition Image_new (size : Z * Z) (color : RGB) : Image :=
  {| width := fst size; height := snd size; getpixel := fun _ _ => color |}.

(** [canvas.paste(im, (x, y))]: the box of [im] placed with its upper left
    corner at [(x, y)] replaces the pixels of the canvas; the canvas keeps
    its size. *)
Definition paste (canvas im : Image) (box : Z * Z) : Image :=
  let '(x, y) := box in
  {| width := width canvas;
     height := height canvas;
     getpixel := fun i j =>
       if ((x <=? i) && (i <? x + width im) && (y <=? j) && (j <? y + height im))%bool
       then getpixel im (i - x) (j - y)
       else getpixel canvas i j |}.

(** [Image.frombytes("RGB", (w, h), samples)]: three bytes per pixel, rows
    top to bottom. *)
Definition sample (samples : list byte) (k : Z) : Z :=
  Z.of_N (Byte.to_N (nth (Z.to_nat k) samples x00%byte)).

Definition Image_frombytes (size : Z * Z) (samples : list byte) : Image :=
  let '(w, h) := size in
  {| width := w;
     height := h;
     getpixel := fun i j =>
       let k := 3 * (j * w + i) in
       (sample samples k, sample samples (k + 1), sample samples (k + 2)) |}.

(** ** The image compositor (source lines 111-123) *)

(** [sum(img.height for img in images)]. *)
Definition py_sum (l : list Z) : Z := fold_left Z.add l 0.

(** [max(...)] of a non-empty iterable, first element [x0]. *)
Definition py_max (x0 : Z) (l : list Z) : Z := fold_left Z.max l x0.

(** The paste loop: [concatenated] and [y_offset] are the loop's state. *)
Fixpoint paste_loop (max_width : Z) (images : list Image)
    (concatenated : Image) (y_offset : Z) : Image * Z :=
  match images with
  | [] => (concatenated, y_offset)
  | img :: rest =>
      let x_offset := (max_width - width img) / 2 in
      let concatenated := paste concatenated img (x_offset, y_offset) in
      paste_loop max_width rest concatenated (y_offset + height img)
  end.

(** Lines 115-123 for a non-empty [images = img0 :: rest]. *)
Definition concatenate (img0 : Image) (rest : list Image) : Image :=
  let images := img0 :: rest in
  let total_height := py_sum (map height images) in
  let max_width := py_max (width img0) (map width rest) in
  let concatenated := Image_new (max_width, total_height) white in
  fst (paste_loop max_width images concatenated 0).

(** ** base64 (RFC 4648, the standard alphabet, as [base64.b64encode]) *)

Definition b64_alphabet : string :=
  "ABCDEFGHIJKLMNOPQRSTUVWXYZabcdefghijklmnopqrstuvwxyz0123456789+/".

Definition b64_digit (n : N) : byte :=
  match String.get (N.to_nat (N.land n 63)) b64_alphabet with
  | Some c => byte_of_ascii c
  | None => x00%byte
  end.

Definition b64_pad : byte := byte_of_ascii "="%char.

Fixpoint b64encode (s : list byte) : list byte :=
  match s with
  | [] => []
  | [a] =>
      let n := N.shiftl (Byte.to_N a) 16 in
      [b64_digit (N.shiftr n 18); b64_digit (N.shiftr n 12); b64_pad; b64_pad]
  | [a; b] =>
      let n := N.lor (N.shiftl (Byte.to_N a) 16) (N.shiftl (Byte.to_N b) 8) in
      [b64_digit (N.shiftr n 18); b64_digit (N.shiftr n 12);
       b64_digit (N.shiftr n 6); b64_pad]
  | a :: b :: c :: rest =>
      let n := N.lor (N.lor (N.shiftl (Byte.to_N a) 16) (N.shiftl (Byte.to_N b) 8))
                 (Byte.to_N c) in
      b64_digit (N.shiftr n 18) :: b64_digit (N.shiftr n 12) ::
      b64_digit (N.shiftr n 6) :: b64_digit n :: b64encode rest
  end.

(** ** Exceptions

    The Python exception classes the function raises, catches or lets
    through; every exception object has its [str]. The spec's names are
    [NotFoundError] for [FileNotFoundError], [ConversionError] for
    [RuntimeError] and [EmptyDocumentError] for [ValueError].
    [KeyboardInterrupt] and [SystemExit] derive from [BaseException] and
    not from [Exception]: [except Exception] does not catch them. *)

Inductive Exn :=
| FileNotFoundError (msg : string)
| FileExistsError (msg : string)
| TimeoutExpired (msg : string)
| CalledProcessError (msg : string) (stderr : list byte)
| ImportError (msg : string)
| RuntimeError (msg : string)
| ValueError (msg : string)
| Exception (msg : string)
| OSError (msg : string)
| KeyboardInterrupt
| SystemExit (code : string).

Definition str (e : Exn) : string :=
  match e with
  | FileNotFoundError msg | FileExistsError msg | TimeoutExpired msg
  | CalledProcessError msg _ | ImportError msg | RuntimeError msg
  | ValueError msg | Exception msg | OSError msg | SystemExit msg => msg
  | KeyboardInterrupt => EmptyString
  end.

(** [isinstance(e, Exception)]: what [except Exception] catches. *)
Definition is_Exception (e : Exn) : bool :=
  match e with
  | KeyboardInterrupt | SystemExit _ => false
  | _ => true
  end.

(** ** The world: file system and effect log *)

Inductive node :=
| Dir
| File (content : list byte).

Inductive Event :=
| Print (line : string)
| Makedirs (path : string)
| Run (argv : list string) (timeout : Z)
| Replace (src dst : string)
| WordCom (src dst : string) (FileFormat : Z)
| FitzOpen (path : string)
| FitzClose
| SaveJpeg (path : string) (quality : Z)
| WriteText (path : string).

Record World := {
  fs : gmap string node;
  log : list Event          (* oldest first *)
}.

(** ** External collaborators *)

(** [fitz]: a pixmap, a page (rendered through a scaling matrix given by its
    two zoom factors, [alpha=False]) and an open document. The zoom factors
    are Python floats the source only hands over to [fitz.Matrix]; their type
    is left to the environment. *)
Record Pixmap := {
  pix_width : Z;
  pix_height : Z;
  samples : list byte
}.

Record Document (Zoom : Type) := {
  page_count : nat;                                (* [len(pdf)] *)
  get_pixmap : nat -> Zoom -> Zoom -> Pixmap       (* [load_page(n).get_pixmap(...)] *)
}.
Arguments page_count {Zoom} _.
Arguments get_pixmap {Zoom} _ _ _ _.

Class Env := {
  Zoom : Type;
  os_name : string;
  os_path :: PathOps;
  (** [subprocess.run(argv, check=True, capture_output=True, timeout=t)]:
      what it raises, if anything, and the file system it leaves. *)
  subprocess_run :
    list string -> Z -> gmap string node -> option Exn * gmap string node;
  (** [bytes.decode('utf-8', errors='ignore').strip()]. *)
  decode_strip : list byte -> string;
  (** The Word automation sequence [Dispatch; Documents.Open(src);
      SaveAs(dst, FileFormat); Close; Quit], [import win32com.client]
      included: what it raises, if anything, and the file system it leaves. *)
  word_com :
    string -> string -> Z -> gmap string node -> option Exn * gmap string node;
  (** [fitz.open(path)]. *)
  fitz_open : gmap string node -> string -> Exn + Document Zoom;
  (** The bytes PIL's JPEG encoder produces for an image and a quality. *)
  jpeg_encode : Image -> Z -> list byte
}.

(** ** A state-and-exception monad for Python statements *)

Inductive Result (A : Type) :=
| Returned (a : A)
| Raised (e : Exn).
Arguments Returned {A} _.
Arguments Raised {A} _.

Definition Py (A : Type) : Type := World -> Result A * World.

Definition ret {A} (a : A) : Py A := fun w => (Returned a, w).

Definition raise {A} (e : Exn) : Py A := fun w => (Raised e, w).

Definition bind {A B} (m : Py A) (k : A -> Py B) : Py B :=
  fun w =>
    match m w with
    | (Returned a, w') => k a w'
    | (Raised e, w') => (Raised e, w')
    end.

(** [try: body except ...: handler]: [handler e] is [None] when no [except]
    clause matches the class of [e]. *)
Definition try_except {A} (body : Py A) (handler : Exn -> option (Py A)) : Py A :=
  fun w =>
    match body w with
    | (Returned a, w') => (Returned a, w')
    | (Raised e, w') =>
        match handler e with
        | Some h => h w'
        | None => (Raised e, w')
        end
    end.

Declare Scope py_scope.
Delimit Scope py_scope with py.
Notation "x <- m ;; k" := (bind m (fun x => k))
  (at level 100, m at next level, right associativity) : py_scope.
Notation "m ;;; k" := (bind m (fun _ => k))
  (at level 100, right associativity) : py_scope.

Definition emit (e : Event) : Py unit :=
  fun w => (Returned tt, {| fs := fs w; log := (log w ++ [e])%list |}).

Definition print (line : string) : Py unit := emit (Print line).

Definition get_fs : Py (gmap string node) := fun w => (Returned (fs w), w).

Definition set_fs (m : gmap string node) : Py unit :=
  fun w => (Returned tt, {| fs := m; log := log w |}).

(** A path exists when the file system has a node for it. *)
Definition path_exists (m : gmap string node) (p : string) : bool :=
  bool_decide (is_Some (m !! p)).

(** ** The program *)

Section Program.

Context `{E : Env}.

Local Open Scope py_scope.

(** [os.path.exists(p)]. *)
Definition os_path_exists (p : string) : Py bool :=
  m <- get_fs ;; ret (path_exists m p).

(** [os.makedirs(p, exist_ok=True)]: an existing directory is accepted, an
    existing file is not. *)
Definition os_makedirs (p : string) : Py unit :=
  emit (Makedirs p) ;;;
  m <- get_fs ;;
  match m !! p with
  | Some Dir => ret tt
  | Some (File _) => raise (FileExistsError ("[Errno 17] File exists: '" ++ p ++ "'"))
  | None => set_fs (<[p := Dir]> m)
  end.

(** [os.replace(src, dst)]. *)
Definition os_replace (src dst : string) : Py unit :=
  emit (Replace src dst) ;;;
  m <- get_fs ;;
  match m !! src with
  | Some n => set_fs (<[dst := n]> (delete src m))
  | None =>
      raise (FileNotFoundError
               ("[Errno 2] No such file or directory: '" ++ src ++ "' -> '" ++ dst ++ "'"))
  end.

(** [subprocess.run([...], check=True, capture_output=True, timeout=t)]. *)
Definition run_process (argv : list string) (timeout : Z) : Py unit :=
  emit (Run argv timeout) ;;;
  m <- get_fs ;;
  let '(exn, m') := subprocess_run argv timeout m in
  set_fs m' ;;;
  match exn with
  | Some e => raise e
  | None => ret tt
  end.

(** Lines 76-84: the Word COM calls. *)
Definition run_word_com (src dst : string) (FileFormat : Z) : Py unit :=
  emit (WordCom src dst FileFormat) ;;;
  m <- get_fs ;;
  let '(exn, m') := word_com src dst FileFormat m in
  set_fs m' ;;;
  match exn with
  | Some e => raise e
  | None => ret tt
  end.

Definition libreoffice_argv (output_folder word_path : string) : list string :=
  ["libreoffice"; "--headless"; "--convert-to"; "pdf"; "--outdir";
   output_folder; word_path].

(** Lines 49-71: method 1, LibreOffice. Returns the new value of
    [converted], which is [False] before. *)
Definition convert_libreoffice
    (word_path output_folder name_without_ext pdf_path : string) : Py bool :=
  try_except
    (run_process (libreoffice_argv output_folder word_path) 120 ;;;
     let generated_pdf := join output_folder (name_without_ext ++ ".pdf")%string in
     generated <- os_path_exists generated_pdf ;;
     if generated then
       (if negb (String.eqb generated_pdf pdf_path)
        then os_replace generated_pdf pdf_path
        else ret tt) ;;;
       print "✓ Word → PDF 转换成功（LibreOffice）" ;;;
       ret true
     else ret false)
    (fun e =>
       match e with
       | FileNotFoundError _ =>
           Some (print "LibreOffice 未安装或不可用，尝试 Microsoft Word 方式..." ;;;
                 ret false)
       | TimeoutExpired _ =>
           Some (print "LibreOffice 转换超时" ;;; ret false)
       | CalledProcessError _ stderr =>
           Some (print ("LibreOffice 转换失败: " ++ decode_strip stderr)%string ;;;
                 ret false)
       | _ => None
       end).

Definition wdFormatPDF : Z := 17.

(** Lines 75-91: method 2, Microsoft Word through COM. [except Exception]
    catches whatever [except ImportError] did not, as far as it is an
    [Exception]. *)
Definition convert_word_com (word_path pdf_path : string) : Py bool :=
  try_except
    (run_word_com (abspath word_path) (abspath pdf_path) wdFormatPDF ;;;
     print "✓ Word → PDF 转换成功（Microsoft Word）" ;;;
     ret true)
    (fun e =>
       match e with
       | ImportError _ =>
           Some (print "pywin32 未安装，无法使用 Word COM" ;;; ret false)
       | _ =>
           if is_Exception e
           then Some (print ("Word COM 转换失败: " ++ str e)%string ;;; ret false)
           else None
       end).

Definition conversion_failed_msg : string :=
  "所有 Word → PDF 转换方式均失败，请检查 LibreOffice 或 Microsoft Office 安装".

(** Lines 45-94: step 1, Word -> PDF. *)
Definition word_to_pdf
    (word_path output_folder name_without_ext pdf_path : string) : Py unit :=
  print ("正在将 Word 转换为 PDF: " ++ word_path ++ " → " ++ pdf_path)%string ;;;
  converted <- convert_libreoffice word_path output_folder name_without_ext pdf_path ;;
  converted <- (if (negb converted && String.eqb os_name "nt")%bool
                then convert_word_com word_path pdf_path
                else ret converted) ;;
  if negb converted then raise (RuntimeError conversion_failed_msg) else ret tt.

(** Lines 102-107: one image per page index of [range(len(pdf))]. *)
Definition render_page (pdf : Document Zoom) (zoom_x zoom_y : Zoom) (page_num : nat)
    : Image :=
  let pix := get_pixmap pdf page_num zoom_x zoom_y in
  Image_frombytes (pix_width pix, pix_height pix) (samples pix).

Definition render_pages (pdf : Document Zoom) (zoom_x zoom_y : Zoom) : list Image :=
  map (render_page pdf zoom_x zoom_y) (seq 0 (page_count pdf)).

(** Lines 99-109: open the PDF, rasterize every page, close. *)
Definition pdf_to_images (pdf_path : string) (zoom_x zoom_y : Zoom)
    : Py (list Image) :=
  emit (FitzOpen pdf_path) ;;;
  m <- get_fs ;;
  match fitz_open m pdf_path with
  | inl e => raise e
  | inr pdf =>
      let images := render_pages pdf zoom_x zoom_y in
      emit FitzClose ;;;
      ret images
  end.

(** What PIL's JPEG writer refuses: an image without pixels, and a side
    over 65500 pixels, the limit of the format. *)
Definition jpeg_refuses (im : Image) : option Exn :=
  if ((width im =? 0) || (height im =? 0))%bool
  then Some (ValueError "cannot write empty image as JPEG")
  else if ((65500 <? width im) || (65500 <? height im))%bool
  then Some (OSError "encoder error -2 when writing image file")
  else None.

(** The file system after a refused save. PIL opens the file before it
    encodes: a file that was there is left empty, one that had to be created
    is removed again. *)
Definition fs_refused_save (m : gmap string node) (path : string)
    : gmap string node :=
  match m !! path with
  | Some _ => <[path := File []]> m
  | None => m
  end.

(** [concatenated.save(path, 'JPEG', quality=q)]; what the writer raises
    leaves the function. *)
Definition save_jpeg (im : Image) (path : string) (quality : Z) : Py unit :=
  emit (SaveJpeg path quality) ;;;
  m <- get_fs ;;
  match jpeg_refuses im with
  | Some e => set_fs (fs_refused_save m path) ;;; raise e
  | None => set_fs (<[path := File (jpeg_encode im quality)]> m)
  end.

(** [with open(path, 'w', encoding='utf-8') as f: f.write(text)]. Strings
    are kept as their UTF-8 bytes, so encoding is the identity. *)
Definition write_text (path text : string) : Py unit :=
  emit (WriteText path) ;;;
  m <- get_fs ;;
  set_fs (<[path := File (list_byte_of_string text)]> m).

(** Lines 130-133. *)
Definition data_url_of (concatenated : Image) : string :=
  let buffered := jpeg_encode concatenated 95 in
  let base64_str := string_of_list_byte (b64encode buffered) in
  ("data:image/jpeg;base64," ++ base64_str)%string.

(** Lines 111-138: the emptiness check, the stacking, the two artifacts. *)
Definition images_to_artifacts (images : list Image)
    (image_path base64_txt_path : string) : Py unit :=
  match images with
  | [] => raise (ValueError "PDF 中没有可转换的页面")
  | img0 :: rest =>
      let concatenated := concatenate img0 rest in
      save_jpeg concatenated image_path 95 ;;;
      print ("✓ 拼接图片已保存: " ++ image_path)%string ;;;
      let data_url := data_url_of concatenated in
      write_text base64_txt_path data_url ;;;
      print ("✓ Base64 已保存: " ++ base64_txt_path)%string
  end.

(** Lines 31-42: the paths derived from [word_path]. *)
Definition name_without_ext_of (word_path : string) : string :=
  let word_name := basename word_path in
  fst (splitext word_name).

Definition output_folder_of (word_path : string) : string :=
  let word_dir := dirname word_path in
  join word_dir (name_without_ext_of word_path).

Definition pdf_path_of (word_path : string) : string :=
  join (output_folder_of word_path) (name_without_ext_of word_path ++ ".pdf")%string.

Definition image_path_of (word_path : string) : string :=
  join (output_folder_of word_path) "img.jpg".

Definition base64_txt_path_of (word_path : string) : string :=
  join (output_folder_of word_path) "base64.txt".

(** The function itself. *)
Definition word_to_base64image (word_path : string) (zoom_x zoom_y : Zoom)
    : Py (string * string * string) :=
  found <- os_path_exists word_path ;;
  if negb found
  then raise (FileNotFoundError ("Word 文件未找到: " ++ word_path)%string)
  else
    let name_without_ext := name_without_ext_of word_path in
    let output_folder := output_folder_of word_path in
    os_makedirs output_folder ;;;
    let pdf_path := pdf_path_of word_path in
    let image_path := image_path_of word_path in
    let base64_txt_path := base64_txt_path_of word_path in
    word_to_pdf word_path output_folder name_without_ext pdf_path ;;;
    print ("正在将 PDF 转换为图片并生成 base64: " ++ pdf_path)%string ;;;
    images <- pdf_to_images pdf_path zoom_x zoom_y ;;
    images_to_artifacts images image_path base64_txt_path ;;;
    ret (pdf_path, image_path, base64_txt_path).

End Program.

(** ** The batch loop of the script (source lines 144-156)

    The script calls the function on every entry of [word_files] with the
    default zoom factors and reports each file on the console; [except
    Exception] catches what the call raises, as far as it is an
    [Exception]. The float [2.0] of the
    defaults is handed in as [zoom], in the host's type of zoom factors. *)

Section Batch.

Context `{E : Env}.

Local Open Scope py_scope.

Definition newline : string := String (Ascii.ascii_of_nat 10) EmptyString.

(** Lines 152-156: the body of the loop. *)
Definition process_file (zoom : Zoom) (word_file : string) : Py unit :=
  try_except
    (paths <- word_to_base64image word_file zoom zoom ;;
     let '(pdf_p, img_p, b64_p) := paths in
     print ("完成: " ++ word_file ++ " → " ++ dirname pdf_p ++ "/" ++ newline)%string)
    (fun e =>
       if is_Exception e
       then Some (print ("处理失败 " ++ word_file ++ ": " ++ str e ++ newline)%string)
       else None).

(** Lines 151-156: [for word_file in word_files]. *)
Fixpoint main_loop (zoom : Zoom) (word_files : list string) : Py unit :=
  match word_files with
  | [] => ret tt
  | word_file :: rest => process_file zoom word_file ;;; main_loop zoom rest
  end.

(** Lines 146-149: the list the script ships with. *)
Definition word_files : list string := ["documents/demo.docx"].

Definition main (zoom : Zoom) : Py unit := main_loop zoom word_files.

End Batch.

(** ** The stages of the pipeline and what the environment decides

    [word_to_base64image] runs the document renderer (lines 27-94) and then
    the rasterizer and compositor (lines 97-140). *)

Section Stages.

Context `{E : Env}.

Local Open Scope py_scope.

(** Lines 27-94: the existence check, the output folder, Word -> PDF. *)
Definition render_document (word_path : string) : Py unit :=
  found <- os_path_exists word_path ;;
  if negb found
  then raise (FileNotFoundError ("Word 文件未找到: " ++ word_path)%string)
  else
    os_makedirs (output_folder_of word_path) ;;;
    word_to_pdf word_path (output_folder_of word_path)
      (name_without_ext_of word_path) (pdf_path_of word_path).

(** Lines 97-140: PDF -> pages -> composite -> artifacts, and the result. *)
Definition rasterize_and_compose (word_path : string) (zoom_x zoom_y : Zoom)
    : Py (string * string * string) :=
  print ("正在将 PDF 转换为图片并生成 base64: " ++ pdf_path_of word_path)%string ;;;
  images <- pdf_to_images (pdf_path_of word_path) zoom_x zoom_y ;;
  images_to_artifacts images (image_path_of word_path) (base64_txt_path_of word_path) ;;;
  ret (pdf_path_of word_path, image_path_of word_path, base64_txt_path_of word_path).

(** The world after some more effects. *)
Definition extend (w : World) (m : gmap string node) (new : list Event) : World :=
  {| fs := m; log := (log w ++ new)%list |}.

(** The file system [os.makedirs(p, exist_ok=True)] leaves when it returns. *)
Definition fs_makedirs (m : gmap string node) (p : string) : gmap string node :=
  match m !! p with
  | None => <[p := Dir]> m
  | Some _ => m
  end.

(** The console line of the [except] clause that catches [e] in the
    LibreOffice block; [None] when no clause does. *)
Definition libreoffice_except (e : Exn) : option string :=
  match e with
  | FileNotFoundError _ => Some "LibreOffice 未安装或不可用，尝试 Microsoft Word 方式..."
  | TimeoutExpired _ => Some "LibreOffice 转换超时"
  | CalledProcessError _ stderr =>
      Some ("LibreOffice 转换失败: " ++ decode_strip stderr)%string
  | _ => None
  end.

(** The console line of the [except] clause that catches [e] in the Word COM
    block. *)
Definition word_com_except (e : Exn) : string :=
  match e with
  | ImportError _ => "pywin32 未安装，无法使用 Word COM"
  | _ => ("Word COM 转换失败: " ++ str e)%string
  end.

End Stages.

(** ** The renderer in terms of what the environment answers *)

Section Renderer.

Context `{E : Env}.

Definition is_file (m : gmap string node) (p : string) : bool :=
  match m !! p with
  | Some (File _) => true
  | _ => false
  end.

(** The file system LibreOffice is started on: the output folder exists. *)
Definition fs_before_conversion (w : World) (word_path : string) : gmap string node :=
  fs_makedirs (fs w) (output_folder_of word_path).

(** What [subprocess.run] answers in a run from [w]. *)
Definition libreoffice_result (w : World) (word_path : string)
    : option Exn * gmap string node :=
  subprocess_run (libreoffice_argv (output_folder_of word_path) word_path) 120
    (fs_before_conversion w word_path).

(** Backend A succeeded: the process returned and the PDF is there. *)
Definition libreoffice_converted (w : World) (word_path : string) : bool :=
  match libreoffice_result w word_path with
  | (None, m) => path_exists m (pdf_path_of word_path)
  | (Some _, _) => false
  end.

(** The run gets as far as the converters: the source exists and the output
    folder could be made. *)
Definition conversion_reached (w : World) (word_path : string) : bool :=
  path_exists (fs w) word_path && negb (is_file (fs w) (output_folder_of word_path)).

Definition run_event (word_path : string) : Event :=
  Run (libreoffice_argv (output_folder_of word_path) word_path) 120.

Definition word_com_event (word_path : string) : Event :=
  WordCom (abspath word_path) (abspath (pdf_path_of word_path)) 17.

(** Lines 74-94 once backend A has left [converted] false, the file system
    [m] and the new events [evs]. *)
Definition fallback (w : World) (word_path : string) (m : gmap string node)
    (evs : list Event) : Result unit * World :=
  if String.eqb os_name "nt"
  then match word_com (abspath word_path) (abspath (pdf_path_of word_path)) 17 m with
       | (None, m') =>
           (Returned tt,
            extend w m' (evs ++ [word_com_event word_path;
                                 Print "✓ Word → PDF 转换成功（Microsoft Word）"]))
       | (Some e, m') =>
           if is_Exception e
           then (Raised (RuntimeError conversion_failed_msg),
                 extend w m' (evs ++ [word_com_event word_path;
                                      Print (word_com_except e)]))
           else (Raised e, extend w m' (evs ++ [word_com_event word_path]))
       end
  else (Raised (RuntimeError conversion_failed_msg), extend w m evs).

Definition start_line (word_path : string) : Event :=
  Print ("正在将 Word 转换为 PDF: " ++ word_path ++ " → " ++ pdf_path_of word_path)%string.

End Renderer.

(** ** Specification vocabulary for the compositor *)

(** The sum of the heights of a sequence of pages. *)
Definition sum_heights (images : list Image) : Z :=
  foldr (fun img acc => height img + acc) 0 images.

(** Where the spec puts the pages: page [i] at horizontal offset
    [floor((max_width - width_i) / 2)] and at the vertical offset reached
    after the pages before it, starting from [y]. *)
Fixpoint placements (max_width y : Z) (images : list Image)
    : list (Image * (Z * Z)) :=
  match images with
  | [] => []
  | img :: rest =>
      (img, ((max_width - width img) / 2, y))
        :: placements max_width (y + height img) rest
  end.

Definition paste_all (canvas : Image) (ps : list (Image * (Z * Z))) : Image :=
  fold_left (fun c p => paste c (fst p) (snd p)) ps canvas.

(** [(i, j)] lies in the box an image occupies once pasted at [(x, y)]. *)
Definition in_box (im : Image) (x y i j : Z) : bool :=
  ((x <=? i) && (i <? x + width im) && (y <=? j) && (j <? y + height im))%bool.

(** ** Reading the effect log *)

(** The events a run added to the log. *)
Definition new_events (w w' : World) : list Event :=
  drop (length (log w)) (log w').

Definition is_backend_event (e : Event) : bool :=
  match e with
  | Run _ _ | WordCom _ _ _ => true
  | _ => false
  end.

(** The converter attempts among some events, in order. *)
Definition backend_events (evs : list Event) : list Event :=
  List.filter is_backend_event evs.

Definition is_print (e : Event) : bool :=
  match e with
  | Print _ => true
  | _ => false
  end.

(** Everything but the console output. *)
Definition effects (evs : list Event) : list Event :=
  List.filter (fun e => negb (is_print e)) evs.

(** The events a run of [word_to_base64image] on [word_path] can add. *)
Definition pipeline_event `{E : Env} (word_path : string) (e : Event) : Prop :=
  match e with
  | Print _ => True
  | Makedirs d => d = output_folder_of word_path
  | Run _ _ => e = run_event word_path
  | WordCom _ _ _ => e = word_com_event word_path
  | FitzOpen path => path = pdf_path_of word_path
  | FitzClose => True
  | SaveJpeg path quality => path = image_path_of word_path /\ quality = 95
  | WriteText path => path = base64_txt_path_of word_path
  | Replace _ _ => False
  end.

(** The events the renderer (lines 27-94) can add. *)
Definition renderer_event `{E : Env} (word_path : string) (e : Event) : Prop :=
  match e with
  | Print _ => True
  | Makedirs d => d = output_folder_of word_path
  | Run _ _ => e = run_event word_path
  | WordCom _ _ _ => e = word_com_event word_path
  | _ => False
  end.

(** The same host with another answer from [subprocess.run]. *)
Definition with_subprocess_run (E : Env)
    (run : list string -> Z -> gmap string node -> option Exn * gmap string node)
    : Env :=
  {| Zoom := @Zoom E;
     os_name := @os_name E;
     os_path := @os_path E;
     subprocess_run := run;
     decode_strip := @decode_strip E;
     word_com := @word_com E;
     fitz_open := @fitz_open E;
     jpeg_encode := @jpeg_encode E |}.

(** ** Why a conversion failed *)

Inductive Reason :=
| BackendNotFound                      (* LibreOffice: tool not found *)
| Timeout                              (* LibreOffice: timeout *)
| NonZeroExit (stderr : list byte)     (* LibreOffice: non-zero exit *)
| NoPdfProduced                        (* LibreOffice: exit 0, no PDF *)
| NotApplicable                        (* Word COM: not this platform *)
| ComUnavailable                       (* Word COM: pywin32 missing *)
| ComException (e : Exn).              (* Word COM: automation exception *)

(** Why backend A failed in a run from [w]; [None] when it did not fail in
    one of the ways the function handles. *)
Definition libreoffice_reason `{E : Env} (w : World) (word_path : string)
    : option Reason :=
  match libreoffice_result w word_path with
  | (Some (FileNotFoundError _), _) => Some BackendNotFound
  | (Some (TimeoutExpired _), _) => Some Timeout
  | (Some (CalledProcessError _ stderr), _) => Some (NonZeroExit stderr)
  | (Some _, _) => None
  | (None, m) =>
      if path_exists m (pdf_path_of word_path) then None else Some NoPdfProduced
  end.

(** Why backend B failed after backend A left the file system [m]; [None]
    when it did not fail in a way the function handles. *)
Definition word_com_reason `{E : Env} (word_path : string) (m : gmap string node)
    : option Reason :=
  if String.eqb os_name "nt"
  then match word_com (abspath word_path) (abspath (pdf_path_of word_path)) 17 m with
       | (Some (ImportError _), _) => Some ComUnavailable
       | (Some e, _) => if is_Exception e then Some (ComException e) else None
       | (None, _) => None
       end
  else Some NotApplicable.

(** Both backends failed in a run from [w], for the reasons [ra] and [rb]. *)
Definition conversion_fails `{E : Env} (w : World) (word_path : string)
    (ra rb : Reason) : Prop :=
  conversion_reached w word_path = true /\
  libreoffice_reason w word_path = Some ra /\
  word_com_reason word_path (snd (libreoffice_result w word_path)) = Some rb.

(** The console line a reason is reported with, if any. *)
Definition reason_line `{E : Env} (r : Reason) : option string :=
  match r with
  | BackendNotFound => Some "LibreOffice 未安装或不可用，尝试 Microsoft Word 方式..."
  | Timeout => Some "LibreOffice 转换超时"
  | NonZeroExit stderr => Some ("LibreOffice 转换失败: " ++ decode_strip stderr)%string
  | NoPdfProduced => None
  | NotApplicable => None
  | ComUnavailable => Some "pywin32 未安装，无法使用 Word COM"
  | ComException e => Some ("Word COM 转换失败: " ++ str e)%string
  end.

(** The claim that the raised exception aggregates both failure reasons:
    some reading [describe] of an exception's content gives back the two
    reasons of every failed conversion. *)
Definition error_aggregates_reasons (describe : Exn -> Reason * Reason) : Prop :=
  forall (E : Env) (w : World) (word_path : string) (zoom_x zoom_y : @Zoom E)
         (ra rb : Reason),
    @conversion_fails E w word_path ra rb ->
    exists e,
      fst (@word_to_base64image E word_path zoom_x zoom_y w) = Raised e /\
      describe e = (ra, rb).

(** ** A concrete host for examples

    A posix host on which LibreOffice writes [<outdir>/<stem>.pdf]; the PDF
    it writes has the three pages of the spec's geometry example when
    rendered at zoom 2 (100x50, 80x60 and 120x40 pixels), each page filled
    with one colour. The JPEG encoder is a stand-in that records the size of
    the image, the quality and the pixel in the upper left corner. *)

Module Demo.

Definition byte_of_Z (z : Z) : byte :=
  match Byte.of_N (Z.to_N (z mod 256)) with
  | Some b => b
  | None => x00%byte
  end.

Definition plain_pixmap (w h grey : Z) : Pixmap :=
  {| pix_width := w;
     pix_height := h;
     samples := repeat (byte_of_Z grey) (Z.to_nat (3 * w * h)) |}.

Definition native_size (page_num : nat) : Z * Z :=
  match page_num with
  | O => (50, 25)
  | S O => (40, 30)
  | _ => (60, 20)
  end.

Definition document (pages : nat) : Document Z :=
  {| page_count := pages;
     get_pixmap := fun n zx zy =>
       let '(w, h) := native_size n in
       plain_pixmap (w * zx) (h * zy) (10 * Z.of_nat n + 10) |}.

Definition pdf_bytes (pages : nat) : list byte :=
  (list_byte_of_string "%PDF-" ++ [byte_of_Z (Z.of_nat pages)])%list.

Definition toy_jpeg (im : Image) (quality : Z) : list byte :=
  let '(r, g, b) := getpixel im 0 0 in
  map byte_of_Z [width im; height im; quality; r; g; b].

(** What [fitz.open] finds at a path: the page count is the last byte of
    the file. *)
Definition open_pdf (m : gmap string node) (path : string) : Exn + Document Z :=
  match m !! path with
  | Some (File content) =>
      inr (document (N.to_nat (Byte.to_N (List.last content x00%byte))))
  | _ => inl (Exception ("no such file: '" ++ path ++ "'")%string)
  end.

(** LibreOffice: [argv] ends in [--outdir <folder> <source>]. *)
Definition libreoffice_ok (pages : nat) (argv : list string) (timeout : Z)
    (m : gmap string node) : option Exn * gmap string node :=
  match argv with
  | [_; _; _; _; _; outdir; source] =>
      let stem := fst (posixpath.splitext (posixpath.basename source)) in
      (None, <[posixpath.join outdir (stem ++ ".pdf")%string := File (pdf_bytes pages)]> m)
  | _ => (None, m)
  end.

Definition raises (e : Exn) (argv : list string) (timeout : Z)
    (m : gmap string node) : option Exn * gmap string node :=
  (Some e, m).

Definition silent (argv : list string) (timeout : Z)
    (m : gmap string node) : option Exn * gmap string node :=
  (None, m).

Definition no_pywin32 (src dst : string) (FileFormat : Z)
    (m : gmap string node) : option Exn * gmap string node :=
  (Some (ImportError "No module named 'win32com'"), m).

Definition host
    (run : list string -> Z -> gmap string node -> option Exn * gmap string node)
    : Env :=
  {| Zoom := Z;
     os_name := "posix";
     os_path := posix_ops (posixpath.join "/home/user");
     subprocess_run := run;
     decode_strip := string_of_list_byte;
     word_com := no_pywin32;
     fitz_open := open_pdf;
     jpeg_encode := toy_jpeg |}.

Definition docx : list byte := list_byte_of_string "PK".

Definition world : World :=
  {| fs := {[ "documents/demo.docx" := File docx ]}; log := [] |}.

Definition path : string := "documents/demo.docx".

(** The world the renderer leaves when LibreOffice writes [pages] pages. *)
Definition rendered (pages : nat) : World :=
  snd (@render_document (host (libreoffice_ok pages)) path world).

(** Page [n] of the three-page document at zoom 2. *)
Definition page (n : nat) : Image :=
  @render_page (host silent) (document 3) 2 2 n.

(** The file system once the output folder is made. *)
Definition fs_folder : gmap string node :=
  <["documents/demo" := Dir]> (fs world).

Definition blank (w h : Z) : Image := Image_new (w, h) (0, 0, 0).

(** The same host with a PDF library that cannot read what LibreOffice
    wrote. *)
Definition host_unreadable : Env :=
  {| Zoom := Z;
     os_name := "posix";
     os_path := posix_ops (posixpath.join "/home/user");
     subprocess_run := libreoffice_ok 3;
     decode_strip := string_of_list_byte;
     word_com := no_pywin32;
     fitz_open := fun _ _ => inl (Exception "cannot open broken document");
     jpeg_encode := toy_jpeg |}.



End Demo.

(** ** Vocabulary for the console reports and the paths *)

(** [line.startswith(head)]. *)
Fixpoint starts_with (head line : string) : bool :=
  match head with
  | EmptyString => true
  | String a head' =>
      match line with
      | EmptyString => false
      | String b line' => Ascii.eqb a b && starts_with head' line'
      end
  end.

(** A console line of the loop itself: the report on one file. *)
Definition is_report_line (line : string) : bool :=
  starts_with "完成: " line || starts_with "处理失败 " line.

Definition is_report (e : Event) : bool :=
  match e with
  | Print line => is_report_line line
  | _ => false
  end.

Definition reports (evs : list Event) : list Event := List.filter is_report evs.

(** The report on a file whose source is missing. *)
Definition missing_report (word_file : string) : Event :=
  Print ("处理失败 " ++ word_file ++ ": " ++ "Word 文件未找到: " ++ word_file ++ newline)%string.

(** The collaborators raise nothing outside [Exception]: no call is
    interrupted from the keyboard or by [sys.exit]. *)
Definition raise_only_Exceptions `{E : Env} : Prop :=
  (forall argv timeout m e,
      fst (subprocess_run argv timeout m) = Some e -> is_Exception e = true) /\
  (forall src dst format m e,
      fst (word_com src dst format m) = Some e -> is_Exception e = true) /\
  (forall m path e, fitz_open m path = inl e -> is_Exception e = true).

(** A separator, a period somewhere in a string. *)
Fixpoint has_sep (s : string) : bool :=
  match s with
  | EmptyString => false
  | String c r => posixpath.is_sep c || has_sep r
  end.

Fixpoint has_dot (s : string) : bool :=
  match s with
  | EmptyString => false
  | String c r => Ascii.eqb c posixpath.extsep || has_dot r
  end.

(** The separator [posixpath.join] puts after its first component. *)
Definition join_sep (a : string) : string :=
  if (String.eqb a EmptyString || posixpath.ends_with_sep a)%bool then "" else "/".

(** ** Decoding base64 (RFC 4648), the inverse the encoder is checked against *)

(** The position of a character in the alphabet ([0] when it is not there). *)
Fixpoint index_in (c : ascii) (s : string) (k : N) : N :=
  match s with
  | EmptyString => 0%N
  | String x r => if Ascii.eqb x c then k else index_in c r (k + 1)%N
  end.

Definition b64_index (c : byte) : N := index_in (ascii_of_byte c) b64_alphabet 0%N.

Definition byte_of_N (n : N) : byte :=
  match Byte.of_N n with
  | Some b => b
  | None => x00%byte
  end.

Definition is_pad (c : byte) : bool := (Byte.to_N c =? Byte.to_N b64_pad)%N.

(** The decoder of what [b64encode] writes: four characters give 24 bits,
    that is three bytes, or fewer before padding. *)
Fixpoint b64decode (s : list byte) : list byte :=
  match s with
  | c0 :: c1 :: c2 :: c3 :: rest =>
      let n := (b64_index c0 * 262144 + b64_index c1 * 4096 +
                b64_index c2 * 64 + b64_index c3)%N in
      if is_pad c2 then [byte_of_N (n / 65536)%N]
      else if is_pad c3
           then [byte_of_N (n / 65536)%N; byte_of_N ((n / 256) mod 256)%N]
           else byte_of_N (n / 65536)%N :: byte_of_N ((n / 256) mod 256)%N
                  :: byte_of_N (n mod 256)%N :: b64decode rest
  | _ => []
  end.

(** ** Checks of the library models *)

Example posix_dirname : posixpath.dirname "documents/demo.docx" = "documents".
Proof. reflexivity. Qed.
Example posix_basename : posixpath.basename "documents/demo.docx" = "demo.docx".
Proof. reflexivity. Qed.
Example posix_splitext : posixpath.splitext "demo.tar.docx" = ("demo.tar", ".docx").
Proof. reflexivity. Qed.
Example posix_splitext_hidden : posixpath.splitext ".docx" = (".docx", "").
Proof. reflexivity. Qed.
Example posix_join : posixpath.join "documents" "demo" = "documents/demo".
Proof. reflexivity. Qed.
Example posix_join_empty : posixpath.join "" "demo" = "demo".
Proof. reflexivity. Qed.
Example posix_join_abs : posixpath.join "documents" "/tmp/x" = "/tmp/x".
Proof. reflexivity. Qed.
Example posix_dirname_root : posixpath.dirname "/demo.docx" = "/".
Proof. reflexivity. Qed.

Example b64_Man : string_of_list_byte (b64encode (list_byte_of_string "Man")) = "TWFu".
Proof. reflexivity. Qed.
Example b64_Ma : string_of_list_byte (b64encode (list_byte_of_string "Ma")) = "TWE=".
Proof. reflexivity. Qed.
Example b64_M : string_of_list_byte (b64encode (list_byte_of_string "M")) = "TQ==".
Proof. reflexivity. Qed.
Example b64_foobar :
  string_of_list_byte (b64encode (list_byte_of_string "foobar")) = "Zm9vYmFy".
Proof. reflexivity. Qed.
Example b64_high : string_of_list_byte (b64encode [xff; xfe; xfd; xfc]%byte) = "//79/A==".
Proof. reflexivity. Qed.

(** ** The compositor: geometry *)

Section Compositor.

Implicit Types (images rest : list Image) (img : Image).

Lemma py_sum_from (l : list Z) (a : Z) :
  fold_left Z.add l a = a + foldr Z.add 0 l.
Proof.
  revert a; induction l as [|h l IH]; intros a; simpl; [lia|].
  rewrite IH; lia.
Qed.

Lemma py_sum_heights images : py_sum (map height images) = sum_heights images.
Proof.
  unfold py_sum; rewrite py_sum_from, Z.add_0_l.
  induction images as [|img rest IH]; simpl; [reflexivity|].
  rewrite IH; reflexivity.
Qed.

Lemma py_max_ge_init (l : list Z) (a : Z) : a <= fold_left Z.max l a.
Proof.
  revert a; induction l as [|h l IH]; intros a; simpl; [lia|].
  specialize (IH (Z.max a h)); lia.
Qed.

Lemma py_max_upper (l : list Z) (a x : Z) : In x l -> x <= fold_left Z.max l a.
Proof.
  revert a; induction l as [|h l IH]; intros a; simpl; [tauto|].
  intros [->|Hin]; [|auto].
  pose proof (py_max_ge_init l (Z.max a x)); lia.
Qed.

Lemma py_max_attained (l : list Z) (a : Z) :
  fold_left Z.max l a = a \/ In (fold_left Z.max l a) l.
Proof.
  revert a; induction l as [|h l IH]; intros a; simpl; [auto|].
  destruct (IH (Z.max a h)) as [Heq|Hin]; [|auto].
  rewrite Heq. destruct (Z.max_spec a h) as [[_ ->]|[_ ->]]; auto.
Qed.

Lemma paste_width canvas img box : width (paste canvas img box) = width canvas.
Proof. destruct box; reflexivity. Qed.

Lemma paste_height canvas img box : height (paste canvas img box) = height canvas.
Proof. destruct box; reflexivity. Qed.

Lemma getpixel_paste canvas img x y i j :
  getpixel (paste canvas img (x, y)) i j =
  if in_box img x y i j then getpixel img (i - x) (j - y) else getpixel canvas i j.
Proof. reflexivity. Qed.

(** The loop pastes exactly the spec's placements, in order, and leaves the
    cursor below the last page. *)
Lemma paste_loop_placements max_width images canvas y :
  paste_loop max_width images canvas y =
  (paste_all canvas (placements max_width y images), y + sum_heights images).
Proof.
  revert canvas y; induction images as [|img rest IH]; intros canvas y; simpl.
  - f_equal; lia.
  - rewrite IH. unfold paste_all; simpl. f_equal; lia.
Qed.

Lemma paste_all_cons canvas img box ps :
  paste_all canvas ((img, box) :: ps) = paste_all (paste canvas img box) ps.
Proof. reflexivity. Qed.

Lemma placements_cons max_width y img rest :
  placements max_width y (img :: rest) =
  (img, ((max_width - width img) / 2, y)) :: placements max_width (y + height img) rest.
Proof. reflexivity. Qed.

Lemma paste_all_size canvas ps :
  width (paste_all canvas ps) = width canvas /\
  height (paste_all canvas ps) = height canvas.
Proof.
  revert canvas; induction ps as [|[img box] ps IH]; intros canvas; [easy|].
  rewrite paste_all_cons.
  destruct (IH (paste canvas img box)) as [-> ->].
  rewrite paste_width, paste_height; easy.
Qed.

Lemma placements_lookup max_width images y (i : nat) img :
  images !! i = Some img ->
  placements max_width y images !! i =
  Some (img, ((max_width - width img) / 2, y + sum_heights (take i images))).
Proof.
  revert y i; induction images as [|img0 rest IH]; intros y i Hi; [easy|].
  destruct i as [|i]; simpl in *.
  - injection Hi as ->. do 3 f_equal; lia.
  - rewrite (IH _ _ Hi). do 3 f_equal; lia.
Qed.

Lemma placements_length max_width images y :
  length (placements max_width y images) = length images.
Proof.
  revert y; induction images as [|img rest IH]; intros y; simpl; [|rewrite IH]; easy.
Qed.

Lemma sum_heights_nonneg images :
  Forall (fun img => 0 <= height img) images -> 0 <= sum_heights images.
Proof. induction 1; simpl; lia. Qed.

(** Pixels above the cursor are out of the loop's reach. *)
Lemma paste_all_above max_width images canvas y i j :
  Forall (fun img => 0 <= height img) images ->
  j < y ->
  getpixel (paste_all canvas (placements max_width y images)) i j = getpixel canvas i j.
Proof.
  intros Hh; revert canvas y; induction Hh as [|img rest Hh0 Hh IH]; intros canvas y Hj;
    [reflexivity|].
  rewrite placements_cons, paste_all_cons.
  rewrite IH by lia. rewrite getpixel_paste. unfold in_box.
  replace (y <=? j) with false by (symmetry; apply Z.leb_gt; lia).
  rewrite andb_false_r; reflexivity.
Qed.

(** Page [i] shows in the composite at its placement. *)
Lemma paste_all_page max_width images canvas y (i : nat) img a b :
  Forall (fun img => 0 <= height img) images ->
  images !! i = Some img ->
  0 <= a < width img -> 0 <= b < height img ->
  getpixel (paste_all canvas (placements max_width y images))
    ((max_width - width img) / 2 + a) (y + sum_heights (take i images) + b)
  = getpixel img a b.
Proof.
  intros Hh; revert canvas y i.
  induction Hh as [|img0 rest Hh0 Hh IH]; intros canvas y i Hi Ha Hb; [easy|].
  rewrite placements_cons, paste_all_cons.
  destruct i as [|i]; simpl in Hi; simpl take; simpl sum_heights.
  - injection Hi as ->.
    rewrite paste_all_above by (auto; lia).
    rewrite getpixel_paste. unfold in_box.
    replace ((max_width - width img) / 2 <=? (max_width - width img) / 2 + a)
      with true by (symmetry; apply Z.leb_le; lia).
    replace ((max_width - width img) / 2 + a <? (max_width - width img) / 2 + width img)
      with true by (symmetry; apply Z.ltb_lt; lia).
    replace (y <=? y + 0 + b) with true by (symmetry; apply Z.leb_le; lia).
    replace (y + 0 + b <? y + height img) with true by (symmetry; apply Z.ltb_lt; lia).
    simpl. f_equal; lia.
  - replace (y + (height img0 + sum_heights (take i rest)) + b)
      with (y + height img0 + sum_heights (take i rest) + b) by lia.
    apply IH; auto.
Qed.

(** Outside every page's box the canvas keeps its colour. *)
Lemma paste_all_outside canvas ps i j :
  Forall (fun p => in_box (fst p) (fst (snd p)) (snd (snd p)) i j = false) ps ->
  getpixel (paste_all canvas ps) i j = getpixel canvas i j.
Proof.
  intros Hout; revert canvas; induction Hout as [|[img [x y]] ps Hp Hout IH];
    intros canvas; [reflexivity|].
  rewrite paste_all_cons, IH, getpixel_paste. simpl in Hp. rewrite Hp; reflexivity.
Qed.

End Compositor.

Lemma concatenate_placements (img0 : Image) (rest : list Image) :
  let images := img0 :: rest in
  let max_width := py_max (width img0) (map width rest) in
  concatenate img0 rest =
  paste_all (Image_new (max_width, sum_heights images) white)
    (placements max_width 0 images).
Proof.
  intros images max_width. unfold concatenate.
  rewrite paste_loop_placements, py_sum_heights. reflexivity.
Qed.

Lemma concatenate_width (img0 : Image) (rest : list Image) :
  width (concatenate img0 rest) = py_max (width img0) (map width rest).
Proof.
  rewrite concatenate_placements.
  destruct (paste_all_size
              (Image_new (py_max (width img0) (map width rest),
                          sum_heights (img0 :: rest)) white)
              (placements (py_max (width img0) (map width rest)) 0 (img0 :: rest)))
    as [Hw _].
  rewrite Hw; reflexivity.
Qed.

Lemma concatenate_height (img0 : Image) (rest : list Image) :
  height (concatenate img0 rest) = sum_heights (img0 :: rest).
Proof.
  rewrite concatenate_placements.
  destruct (paste_all_size
              (Image_new (py_max (width img0) (map width rest),
                          sum_heights (img0 :: rest)) white)
              (placements (py_max (width img0) (map width rest)) 0 (img0 :: rest)))
    as [_ Hh].
  rewrite Hh; reflexivity.
Qed.

(** C1. For a non-empty sequence of pages [img0 :: rest] the composite is as
    wide as the widest page and as high as all pages together; it is a white
    canvas of that size onto which the pages were pasted in order, page [i]
    at horizontal offset [floor((max_width - width_i) / 2)] and at vertical
    offset the sum of the heights of the pages before it; a pixel that lies
    in no page's box is white. *)
Theorem C1_composite_geometry (img0 : Image) (rest : list Image) :
  let images := img0 :: rest in
  let composite := concatenate img0 rest in
  let max_width := width composite in
  let total_height := height composite in
  Forall (fun img => width img <= max_width) images /\
  Exists (fun img => width img = max_width) images /\
  total_height = sum_heights images /\
  exists ps : list (Image * (Z * Z)),
    composite = paste_all (Image_new (max_width, total_height) white) ps /\
    length ps = length images /\
    (forall (i : nat) (img : Image),
        images !! i = Some img ->
        ps !! i = Some (img, ((max_width - width img) / 2,
                              sum_heights (take i images)))) /\
    (forall x y : Z,
        Forall (fun p => in_box (fst p) (fst (snd p)) (snd (snd p)) x y = false) ps ->
        getpixel composite x y = white).
Proof.
  intros images composite max_width total_height.
  assert (Hw : max_width = py_max (width img0) (map width rest))
    by apply concatenate_width.
  assert (Hh : total_height = sum_heights images) by apply concatenate_height.
  split; [|split; [|split; [exact Hh|]]].
  - rewrite Hw. apply Forall_cons; split.
    + apply py_max_ge_init.
    + apply Forall_forall. intros img Hin.
      apply py_max_upper, in_map, list_elem_of_In, Hin.
  - rewrite Hw. unfold py_max.
    destruct (py_max_attained (map width rest) (width img0)) as [Heq|Hin].
    + apply Exists_cons_hd. unfold py_max. symmetry; exact Heq.
    + apply Exists_cons_tl, Exists_exists.
      apply in_map_iff in Hin as (img & Himg & Hin).
      exists img; split; [apply list_elem_of_In, Hin|exact Himg].
  - exists (placements max_width 0 images).
    assert (Hc : composite =
                 paste_all (Image_new (max_width, total_height) white)
                   (placements max_width 0 images)).
    { rewrite Hw, Hh. apply concatenate_placements. }
    split; [exact Hc|]. split; [apply placements_length|]. split.
    + intros i img Hi. rewrite (placements_lookup _ _ _ _ _ Hi).
      rewrite Z.add_0_l. reflexivity.
    + intros x y Hout. rewrite Hc, paste_all_outside by exact Hout. reflexivity.
Qed.

(** ** Stage by stage: what a run does to the world *)

Section StageRuns.

Context `{E : Env}.

Local Open Scope py_scope.

Lemma bind_returned {A B} (m : Py A) (k : A -> Py B) w a w' :
  m w = (Returned a, w') -> bind m k w = k a w'.
Proof. unfold bind; intros ->; reflexivity. Qed.

Lemma bind_raised {A B} (m : Py A) (k : A -> Py B) w e w' :
  m w = (Raised e, w') -> bind m k w = (Raised e, w').
Proof. unfold bind; intros ->; reflexivity. Qed.

Lemma extend_nil w : extend w (fs w) [] = w.
Proof. destruct w; unfold extend; simpl; rewrite app_nil_r; reflexivity. Qed.

Lemma extend_extend w m new m' new' :
  extend (extend w m new) m' new' = extend w m' (new ++ new').
Proof. unfold extend; simpl; rewrite app_assoc; reflexivity. Qed.

Lemma os_makedirs_run (p : string) w :
  os_makedirs p w =
  match fs w !! p with
  | Some (File _) =>
      (Raised (FileExistsError ("[Errno 17] File exists: '" ++ p ++ "'")%string),
       extend w (fs w) [Makedirs p])
  | _ => (Returned tt, extend w (fs_makedirs (fs w) p) [Makedirs p])
  end.
Proof.
  unfold os_makedirs, fs_makedirs, bind, emit, get_fs, set_fs, ret, raise, extend; simpl.
  destruct (fs w !! p) as [[|content]|]; reflexivity.
Qed.

Lemma convert_libreoffice_run (word_path : string) w :
  let argv := libreoffice_argv (output_folder_of word_path) word_path in
  convert_libreoffice word_path (output_folder_of word_path)
    (name_without_ext_of word_path) (pdf_path_of word_path) w =
  match subprocess_run argv 120 (fs w) with
  | (None, m) =>
      if path_exists m (pdf_path_of word_path)
      then (Returned true,
            extend w m [Run argv 120; Print "✓ Word → PDF 转换成功（LibreOffice）"])
      else (Returned false, extend w m [Run argv 120])
  | (Some e, m) =>
      match libreoffice_except e with
      | Some line => (Returned false, extend w m [Run argv 120; Print line])
      | None => (Raised e, extend w m [Run argv 120])
      end
  end.
Proof.
  intros argv.
  unfold convert_libreoffice, try_except, run_process, os_path_exists, os_replace,
    print, bind, emit, get_fs, set_fs, ret, raise, extend; simpl.
  fold argv. fold (pdf_path_of word_path).
  destruct (subprocess_run argv 120 (fs w)) as [[e|] m]; simpl.
  - destruct e; simpl; rewrite <- ?app_assoc; reflexivity.
  - destruct (path_exists m (pdf_path_of word_path)); simpl; [|reflexivity].
    rewrite String.eqb_refl; simpl. rewrite <- ?app_assoc; reflexivity.
Qed.

Lemma convert_word_com_run (word_path pdf_path : string) w :
  convert_word_com word_path pdf_path w =
  let ev := WordCom (abspath word_path) (abspath pdf_path) 17 in
  match word_com (abspath word_path) (abspath pdf_path) 17 (fs w) with
  | (None, m) =>
      (Returned true, extend w m [ev; Print "✓ Word → PDF 转换成功（Microsoft Word）"])
  | (Some e, m) =>
      if is_Exception e
      then (Returned false, extend w m [ev; Print (word_com_except e)])
      else (Raised e, extend w m [ev])
  end.
Proof.
  unfold convert_word_com, try_except, run_word_com, wdFormatPDF,
    print, bind, emit, get_fs, set_fs, ret, raise, extend; simpl.
  destruct (word_com (abspath word_path) (abspath pdf_path) 17 (fs w)) as [[e|] m]; simpl.
  - destruct e; simpl; rewrite <- ?app_assoc; reflexivity.
  - rewrite <- ?app_assoc; reflexivity.
Qed.

Lemma word_to_pdf_run (word_path : string) w :
  word_to_pdf word_path (output_folder_of word_path)
    (name_without_ext_of word_path) (pdf_path_of word_path) w =
  let start :=
    Print ("正在将 Word 转换为 PDF: " ++ word_path ++ " → " ++ pdf_path_of word_path)%string in
  match convert_libreoffice word_path (output_folder_of word_path)
          (name_without_ext_of word_path) (pdf_path_of word_path)
          (extend w (fs w) [start]) with
  | (Raised e, w1) => (Raised e, w1)
  | (Returned true, w1) => (Returned tt, w1)
  | (Returned false, w1) =>
      if String.eqb os_name "nt"
      then match convert_word_com word_path (pdf_path_of word_path) w1 with
           | (Returned true, w2) => (Returned tt, w2)
           | (Returned false, w2) => (Raised (RuntimeError conversion_failed_msg), w2)
           | (Raised e, w2) => (Raised e, w2)
           end
      else (Raised (RuntimeError conversion_failed_msg), w1)
  end.
Proof.
  unfold word_to_pdf, print, bind, emit, ret, raise, extend; simpl.
  match goal with
  | |- context [convert_libreoffice ?a ?b ?c ?d ?w0] =>
      destruct (convert_libreoffice a b c d w0) as [[[|]|e] w1]; simpl; try reflexivity
  end.
  destruct (String.eqb os_name "nt"); simpl; [|reflexivity].
  destruct (convert_word_com word_path (pdf_path_of word_path) w1) as [[[|]|e] w2];
    reflexivity.
Qed.

Lemma render_document_run (word_path : string) w :
  render_document word_path w =
  if path_exists (fs w) word_path
  then match fs w !! output_folder_of word_path with
       | Some (File _) =>
           (Raised (FileExistsError
                      ("[Errno 17] File exists: '" ++ output_folder_of word_path ++ "'")%string),
            extend w (fs w) [Makedirs (output_folder_of word_path)])
       | _ =>
           word_to_pdf word_path (output_folder_of word_path)
             (name_without_ext_of word_path) (pdf_path_of word_path)
             (extend w (fs_makedirs (fs w) (output_folder_of word_path))
                [Makedirs (output_folder_of word_path)])
       end
  else (Raised (FileNotFoundError ("Word 文件未找到: " ++ word_path)%string), w).
Proof.
  unfold render_document, os_path_exists, bind, get_fs, ret, raise; simpl.
  destruct (path_exists (fs w) word_path); simpl; [|reflexivity].
  rewrite os_makedirs_run.
  destruct (fs w !! output_folder_of word_path) as [[|content]|]; reflexivity.
Qed.

Lemma rasterize_and_compose_run (word_path : string) (zoom_x zoom_y : Zoom) w :
  rasterize_and_compose word_path zoom_x zoom_y w =
  let start :=
    Print ("正在将 PDF 转换为图片并生成 base64: " ++ pdf_path_of word_path)%string in
  match fitz_open (fs w) (pdf_path_of word_path) with
  | inl e => (Raised e, extend w (fs w) [start; FitzOpen (pdf_path_of word_path)])
  | inr pdf =>
      match render_pages pdf zoom_x zoom_y with
      | [] =>
          (Raised (ValueError "PDF 中没有可转换的页面"),
           extend w (fs w) [start; FitzOpen (pdf_path_of word_path); FitzClose])
      | img0 :: rest =>
          let concatenated := concatenate img0 rest in
          match jpeg_refuses concatenated with
          | Some e =>
              (Raised e,
               extend w (fs_refused_save (fs w) (image_path_of word_path))
                 [start; FitzOpen (pdf_path_of word_path); FitzClose;
                  SaveJpeg (image_path_of word_path) 95])
          | None =>
              (Returned (pdf_path_of word_path, image_path_of word_path,
                         base64_txt_path_of word_path),
               extend w
                 (<[base64_txt_path_of word_path :=
                      File (list_byte_of_string (data_url_of concatenated))]>
                    (<[image_path_of word_path := File (jpeg_encode concatenated 95)]>
                       (fs w)))
                 [start; FitzOpen (pdf_path_of word_path); FitzClose;
                  SaveJpeg (image_path_of word_path) 95;
                  Print ("✓ 拼接图片已保存: " ++ image_path_of word_path)%string;
                  WriteText (base64_txt_path_of word_path);
                  Print ("✓ Base64 已保存: " ++ base64_txt_path_of word_path)%string])
          end
      end
  end.
Proof.
  unfold rasterize_and_compose, pdf_to_images, images_to_artifacts, save_jpeg, write_text,
    print, bind, emit, get_fs, set_fs, ret, raise, extend; simpl.
  destruct (fitz_open (fs w) (pdf_path_of word_path)) as [e|pdf]; simpl.
  - rewrite <- ?app_assoc; reflexivity.
  - destruct (render_pages pdf zoom_x zoom_y) as [|img0 rest]; simpl;
      [rewrite <- ?app_assoc; reflexivity|].
    destruct (jpeg_refuses (concatenate img0 rest)); simpl;
      rewrite <- ?app_assoc; reflexivity.
Qed.

(** The function is the renderer followed by the rasterizer and compositor. *)
Lemma word_to_base64image_stages (word_path : string) (zoom_x zoom_y : Zoom) w :
  word_to_base64image word_path zoom_x zoom_y w =
  match render_document word_path w with
  | (Returned _, w1) => rasterize_and_compose word_path zoom_x zoom_y w1
  | (Raised e, w1) => (Raised e, w1)
  end.
Proof.
  unfold word_to_base64image, render_document, rasterize_and_compose.
  cbv zeta. unfold bind.
  destruct (os_path_exists word_path w) as [[found|e] w0]; [|reflexivity].
  destruct found; simpl; [|reflexivity].
  destruct (os_makedirs (output_folder_of word_path) w0) as [[[]|e] w1]; [|reflexivity].
  destruct (word_to_pdf word_path (output_folder_of word_path)
              (name_without_ext_of word_path) (pdf_path_of word_path) w1)
    as [[[]|e] w2]; reflexivity.
Qed.

End StageRuns.

(** ** The renderer, closed form *)

Section RendererRuns.

Context `{E : Env}.

Lemma render_document_closed (word_path : string) w :
  render_document word_path w =
  if negb (path_exists (fs w) word_path)
  then (Raised (FileNotFoundError ("Word 文件未找到: " ++ word_path)%string), w)
  else if is_file (fs w) (output_folder_of word_path)
  then (Raised (FileExistsError
                  ("[Errno 17] File exists: '" ++ output_folder_of word_path ++ "'")%string),
        extend w (fs w) [Makedirs (output_folder_of word_path)])
  else
    let pre := [Makedirs (output_folder_of word_path); start_line word_path] in
    match libreoffice_result w word_path with
    | (None, m) =>
        if path_exists m (pdf_path_of word_path)
        then (Returned tt,
              extend w m (pre ++ [run_event word_path;
                                  Print "✓ Word → PDF 转换成功（LibreOffice）"]))
        else fallback w word_path m (pre ++ [run_event word_path])
    | (Some e, m) =>
        match libreoffice_except e with
        | Some line => fallback w word_path m (pre ++ [run_event word_path; Print line])
        | None => (Raised e, extend w m (pre ++ [run_event word_path]))
        end
    end.
Proof.
  rewrite render_document_run. unfold is_file.
  destruct (path_exists (fs w) word_path); simpl; [|reflexivity].
  assert (Hconv :
    word_to_pdf word_path (output_folder_of word_path) (name_without_ext_of word_path)
      (pdf_path_of word_path)
      (extend w (fs_makedirs (fs w) (output_folder_of word_path))
         [Makedirs (output_folder_of word_path)]) =
    match libreoffice_result w word_path with
    | (None, m) =>
        if path_exists m (pdf_path_of word_path)
        then (Returned tt,
              extend w m ([Makedirs (output_folder_of word_path); start_line word_path]
                          ++ [run_event word_path;
                              Print "✓ Word → PDF 转换成功（LibreOffice）"]))
        else fallback w word_path m
               ([Makedirs (output_folder_of word_path); start_line word_path]
                ++ [run_event word_path])
    | (Some e, m) =>
        match libreoffice_except e with
        | Some line =>
            fallback w word_path m
              ([Makedirs (output_folder_of word_path); start_line word_path]
               ++ [run_event word_path; Print line])
        | None =>
            (Raised e,
             extend w m ([Makedirs (output_folder_of word_path); start_line word_path]
                         ++ [run_event word_path]))
        end
    end).
  { rewrite word_to_pdf_run. cbv zeta. rewrite convert_libreoffice_run. cbv zeta.
    rewrite !extend_extend. unfold libreoffice_result, fs_before_conversion.
    cbn [fs extend].
    destruct (subprocess_run
                (libreoffice_argv (output_folder_of word_path) word_path) 120
                (fs_makedirs (fs w) (output_folder_of word_path))) as [[e|] m].
    - destruct (libreoffice_except e) as [line|]; rewrite ?extend_extend.
      + unfold fallback. destruct (String.eqb os_name "nt"); [|reflexivity].
        rewrite convert_word_com_run. cbv zeta. cbn [fs extend].
        destruct (word_com (abspath word_path) (abspath (pdf_path_of word_path)) 17 m)
          as [[e'|] m']; [destruct (is_Exception e')|]; rewrite extend_extend;
          reflexivity.
      + reflexivity.
    - destruct (path_exists m (pdf_path_of word_path)); rewrite ?extend_extend;
        [reflexivity|].
      unfold fallback. destruct (String.eqb os_name "nt"); [|reflexivity].
      rewrite convert_word_com_run. cbv zeta. cbn [fs extend].
      destruct (word_com (abspath word_path) (abspath (pdf_path_of word_path)) 17 m)
        as [[e'|] m']; [destruct (is_Exception e')|]; rewrite extend_extend;
        reflexivity. }
  destruct (fs w !! output_folder_of word_path) as [[|content]|]; simpl;
    try reflexivity; exact Hconv.
Qed.

End RendererRuns.

(** ** The shape of the log of a run *)

Section Logs.

Context `{E : Env}.

Lemma new_events_extend w m new : new_events w (extend w m new) = new.
Proof. unfold new_events, extend; simpl. apply drop_app_length. Qed.

Lemma backend_events_app evs evs' :
  backend_events (evs ++ evs') = (backend_events evs ++ backend_events evs')%list.
Proof. apply List.filter_app. Qed.

Lemma renderer_event_pipeline (word_path : string) (e : Event) :
  renderer_event word_path e -> pipeline_event word_path e.
Proof. destruct e; simpl; auto; contradiction. Qed.

Lemma fallback_shape w (word_path : string) m evs :
  exists m' tail,
    snd (fallback w word_path m evs) = extend w m' (evs ++ tail) /\
    Forall (renderer_event word_path) tail /\
    backend_events tail =
      (if String.eqb os_name "nt" then [word_com_event word_path] else []) /\
    (fst (fallback w word_path m evs) = Returned tt \/
     exists e, fst (fallback w word_path m evs) = Raised e).
Proof.
  unfold fallback. destruct (String.eqb os_name "nt").
  - destruct (word_com (abspath word_path) (abspath (pdf_path_of word_path)) 17 m)
      as [[e|] m']; [destruct (is_Exception e)|].
    + eexists m', [_; _]. split; [reflexivity|]. split; [repeat constructor|].
      split; [reflexivity|]. right; eauto.
    + eexists m', [_]. split; [reflexivity|]. split; [repeat constructor|].
      split; [reflexivity|]. right; eauto.
    + eexists m', [_; _]. split; [reflexivity|]. split; [repeat constructor|].
      split; [reflexivity|]. left; reflexivity.
  - exists m, []. cbn [fst snd]. rewrite app_nil_r.
    split; [reflexivity|]. split; [constructor|]. split; [reflexivity|]. right; eauto.
Qed.

Lemma render_document_shape (word_path : string) w :
  exists m new,
    snd (render_document word_path w) = extend w m new /\
    Forall (renderer_event word_path) new.
Proof.
  rewrite render_document_closed.
  destruct (path_exists (fs w) word_path); simpl.
  2:{ exists (fs w), []. rewrite extend_nil. split; [reflexivity|constructor]. }
  destruct (is_file (fs w) (output_folder_of word_path)).
  { eexists _, _. split; [reflexivity|]. repeat constructor. }
  destruct (libreoffice_result w word_path) as [[e|] m].
  - destruct (libreoffice_except e) as [line|].
    + destruct (fallback_shape w word_path m
                  [Makedirs (output_folder_of word_path); start_line word_path;
                   run_event word_path; Print line]) as (m' & tail & Hw & Hall & _).
      exists m'. eexists. split; [exact Hw|].
      apply Forall_app; split; [repeat constructor|exact Hall].
    + eexists _, _. split; [reflexivity|]. repeat constructor.
  - destruct (path_exists m (pdf_path_of word_path)).
    + eexists _, _. split; [reflexivity|]. repeat constructor.
    + destruct (fallback_shape w word_path m
                  [Makedirs (output_folder_of word_path); start_line word_path;
                   run_event word_path]) as (m' & tail & Hw & Hall & _).
      exists m'. eexists. split; [exact Hw|].
      apply Forall_app; split; [repeat constructor|exact Hall].
Qed.

Lemma rasterize_and_compose_shape (word_path : string) (zoom_x zoom_y : Zoom) w :
  exists m new,
    snd (rasterize_and_compose word_path zoom_x zoom_y w) = extend w m new /\
    Forall (pipeline_event word_path) new /\
    backend_events new = [].
Proof.
  rewrite rasterize_and_compose_run. cbv zeta.
  destruct (fitz_open (fs w) (pdf_path_of word_path)) as [e|pdf].
  - eexists _, _. split; [reflexivity|]. split; [|reflexivity]. repeat constructor.
  - destruct (render_pages pdf zoom_x zoom_y) as [|img0 rest].
    + eexists _, _. split; [reflexivity|]. split; [|reflexivity]. repeat constructor.
    + destruct (jpeg_refuses (concatenate img0 rest));
        eexists _, _; (split; [reflexivity|]); (split; [|reflexivity]);
        repeat constructor.
Qed.

(** Every run only extends the log, and only with events of the pipeline. *)
Lemma word_to_base64image_log (word_path : string) (zoom_x zoom_y : Zoom) w :
  let w' := snd (word_to_base64image word_path zoom_x zoom_y w) in
  log w' = (log w ++ new_events w w')%list /\
  Forall (pipeline_event word_path) (new_events w w').
Proof.
  cbv zeta. rewrite word_to_base64image_stages.
  destruct (render_document_shape word_path w) as (m & new & Hw & Hall).
  destruct (render_document word_path w) as [[[]|e] w1]; simpl in Hw; subst w1.
  - destruct (rasterize_and_compose_shape word_path zoom_x zoom_y (extend w m new))
      as (m' & new' & Hw' & Hall' & _).
    rewrite Hw', extend_extend, new_events_extend. split; [reflexivity|].
    apply Forall_app; split; [|exact Hall'].
    eapply Forall_impl; [exact Hall|apply renderer_event_pipeline].
  - simpl. rewrite new_events_extend. split; [reflexivity|].
    eapply Forall_impl; [exact Hall|apply renderer_event_pipeline].
Qed.

End Logs.

(** ** The claims *)

(** C3. When the source path does not exist the function raises
    [FileNotFoundError] (the spec's [NotFoundError]) at once: the world is the
    one it was called in, so no process was started, no folder made and no
    file written. *)
Theorem C3_missing_source `{E : Env} (word_path : string) (zoom_x zoom_y : Zoom)
    (w : World) :
  fs w !! word_path = None ->
  word_to_base64image word_path zoom_x zoom_y w =
  (Raised (FileNotFoundError ("Word 文件未找到: " ++ word_path)%string), w).
Proof.
  intros Hmissing.
  rewrite word_to_base64image_stages, render_document_closed.
  unfold path_exists. rewrite Hmissing.
  rewrite bool_decide_false by (intros [x Hx]; discriminate).
  reflexivity.
Qed.

(** C2. When the renderer has produced a document that opens with zero pages,
    the function raises [ValueError] (the spec's [EmptyDocumentError]); after
    the PDF stage it only printed, opened and closed the document: the file
    system is the one the PDF stage left, and in the whole run neither the
    image nor the base64 text was written. *)
Theorem C2_empty_document `{E : Env} (word_path : string) (zoom_x zoom_y : Zoom)
    (w w1 : World) (pdf : Document Zoom) :
  render_document word_path w = (Returned tt, w1) ->
  fitz_open (fs w1) (pdf_path_of word_path) = inr pdf ->
  page_count pdf = 0%nat ->
  exists w',
    word_to_base64image word_path zoom_x zoom_y w =
      (Raised (ValueError "PDF 中没有可转换的页面"), w') /\
    fs w' = fs w1 /\
    w' = extend w1 (fs w1)
           [Print ("正在将 PDF 转换为图片并生成 base64: " ++ pdf_path_of word_path)%string;
            FitzOpen (pdf_path_of word_path); FitzClose] /\
    (forall path quality, ~ In (SaveJpeg path quality) (new_events w w')) /\
    (forall path, ~ In (WriteText path) (new_events w w')).
Proof.
  intros Hdoc Hopen Hzero.
  destruct (render_document_shape word_path w) as (m & new & Hw & Hall).
  rewrite Hdoc in Hw; simpl in Hw.
  eexists. split; [|split; [|split; [reflexivity|]]].
  - rewrite word_to_base64image_stages, Hdoc, rasterize_and_compose_run, Hopen.
    cbv zeta. unfold render_pages. rewrite Hzero. reflexivity.
  - reflexivity.
  - rewrite Hw, extend_extend, new_events_extend.
    rewrite Forall_forall in Hall.
    split.
    + intros path quality Hin. apply in_app_or in Hin as [Hin|Hin].
      * apply (Hall _ (proj2 (list_elem_of_In _ _) Hin)).
      * simpl in Hin. intuition discriminate.
    + intros path Hin. apply in_app_or in Hin as [Hin|Hin].
      * apply (Hall _ (proj2 (list_elem_of_In _ _) Hin)).
      * simpl in Hin. intuition discriminate.
Qed.

(** C7. When the renderer succeeded, the document has pages and the JPEG
    writer accepts the composite (it has pixels and no side over 65500), the
    function returns and the text artifact holds exactly the bytes of
    ["data:image/jpeg;base64,"] followed by the base64 encoding of the JPEG
    bytes (quality 95) of the composite; nothing is added to it. *)
Theorem C7_data_url `{E : Env} (word_path : string) (zoom_x zoom_y : Zoom)
    (w w1 : World) (pdf : Document Zoom) (img0 : Image) (rest : list Image) :
  render_document word_path w = (Returned tt, w1) ->
  fitz_open (fs w1) (pdf_path_of word_path) = inr pdf ->
  render_pages pdf zoom_x zoom_y = img0 :: rest ->
  jpeg_refuses (concatenate img0 rest) = None ->
  exists w',
    word_to_base64image word_path zoom_x zoom_y w =
      (Returned (pdf_path_of word_path, image_path_of word_path,
                 base64_txt_path_of word_path), w') /\
    fs w' !! base64_txt_path_of word_path =
      Some (File (list_byte_of_string
                    ("data:image/jpeg;base64," ++
                     string_of_list_byte
                       (b64encode (jpeg_encode (concatenate img0 rest) 95)))%string)) /\
    In (WriteText (base64_txt_path_of word_path)) (new_events w1 w').
Proof.
  intros Hdoc Hopen Hpages Hsave.
  eexists. split; [|split].
  - rewrite word_to_base64image_stages, Hdoc, rasterize_and_compose_run, Hopen.
    cbv zeta. rewrite Hpages, Hsave. reflexivity.
  - cbn [fs extend]. rewrite lookup_insert_eq. reflexivity.
  - rewrite new_events_extend. simpl. tauto.
Qed.

(** C8. Whenever the function returns, it returns the three paths
    [<folder>/<stem>.pdf], [<folder>/img.jpg] and [<folder>/base64.txt] with
    [<folder> = join(dirname(p), <stem>)] and [<stem>] the base name of the
    source without its extension: they depend on the source path alone, so
    any other invocation on that path returns the same paths, and the only
    folder a run makes is [<folder>]. *)
Theorem C8_output_paths `{E : Env} (word_path : string) (zoom_x zoom_y : Zoom)
    (w w' : World) (paths : string * string * string) :
  word_to_base64image word_path zoom_x zoom_y w = (Returned paths, w') ->
  let stem := fst (splitext (basename word_path)) in
  let folder := join (dirname word_path) stem in
  paths = (join folder (stem ++ ".pdf")%string, join folder "img.jpg",
           join folder "base64.txt") /\
  (forall (zoom_x2 zoom_y2 : Zoom) (w2 w2' : World) (paths2 : string * string * string),
      word_to_base64image word_path zoom_x2 zoom_y2 w2 = (Returned paths2, w2') ->
      paths2 = paths) /\
  (forall d, In (Makedirs d) (new_events w w') -> d = folder).
Proof.
  assert (Hret : forall zx zy w0 w0' ps,
             word_to_base64image word_path zx zy w0 = (Returned ps, w0') ->
             ps = (pdf_path_of word_path, image_path_of word_path,
                   base64_txt_path_of word_path)).
  { intros zx zy w0 w0' ps. rewrite word_to_base64image_stages.
    destruct (render_document word_path w0) as [[[]|e] w1]; [|discriminate].
    rewrite rasterize_and_compose_run. cbv zeta.
    destruct (fitz_open (fs w1) (pdf_path_of word_path)) as [e|pdf]; [discriminate|].
    destruct (render_pages pdf zx zy) as [|img0 rest]; [discriminate|].
    destruct (jpeg_refuses (concatenate img0 rest)); [discriminate|].
    intros [= <- _]. reflexivity. }
  intros Hrun stem folder. split; [|split].
  - exact (Hret _ _ _ _ _ Hrun).
  - intros zx2 zy2 w2 w2' paths2 Hrun2.
    rewrite (Hret _ _ _ _ _ Hrun), (Hret _ _ _ _ _ Hrun2). reflexivity.
  - intros d Hin.
    pose proof (word_to_base64image_log word_path zoom_x zoom_y w) as [_ Hall].
    rewrite Hrun in Hall; simpl in Hall.
    rewrite Forall_forall in Hall.
    exact (Hall _ (proj2 (list_elem_of_In _ _) Hin)).
Qed.

(** C10. The path LibreOffice is expected to write, [generated_pdf], is built
    exactly like [pdf_path], so the guard [generated_pdf != pdf_path] is
    false and no run ever calls [os.replace]. *)
Theorem C10_replace_unreachable `{E : Env} (word_path : string)
    (zoom_x zoom_y : Zoom) (w : World) :
  let generated_pdf :=
    join (output_folder_of word_path) (name_without_ext_of word_path ++ ".pdf")%string in
  let w' := snd (word_to_base64image word_path zoom_x zoom_y w) in
  generated_pdf = pdf_path_of word_path /\
  negb (String.eqb generated_pdf (pdf_path_of word_path)) = false /\
  log w' = (log w ++ new_events w w')%list /\
  forall src dst, ~ In (Replace src dst) (new_events w w').
Proof.
  cbv zeta. split; [reflexivity|]. split.
  { unfold pdf_path_of. rewrite String.eqb_refl. reflexivity. }
  pose proof (word_to_base64image_log word_path zoom_x zoom_y w) as [Hlog Hall].
  split; [exact Hlog|].
  intros src dst Hin. rewrite Forall_forall in Hall.
  exact (Hall _ (proj2 (list_elem_of_In _ _) Hin)).
Qed.

Lemma render_document_backends `{E : Env} (word_path : string) (w : World) :
  exists m new,
    snd (render_document word_path w) = extend w m new /\
    ((conversion_reached w word_path = false /\ backend_events new = []) \/
     (conversion_reached w word_path = true /\
      backend_events new = [run_event word_path] /\
      (libreoffice_converted w word_path = true \/ os_name <> "nt" \/
       exists e m0, libreoffice_result w word_path = (Some e, m0) /\
                    libreoffice_except e = None)) \/
     (conversion_reached w word_path = true /\
      backend_events new = [run_event word_path; word_com_event word_path] /\
      os_name = "nt" /\ libreoffice_converted w word_path = false)).
Proof.
  rewrite render_document_closed. unfold conversion_reached, libreoffice_converted.
  destruct (path_exists (fs w) word_path); simpl.
  2:{ exists (fs w), []. rewrite extend_nil. split; [reflexivity|]. left; split; reflexivity. }
  destruct (is_file (fs w) (output_folder_of word_path)); simpl.
  { eexists _, _. split; [reflexivity|]. left; split; reflexivity. }
  destruct (libreoffice_result w word_path) as [[e|] m] eqn:Hres.
  - destruct (libreoffice_except e) as [line|] eqn:Hexc.
    + destruct (fallback_shape w word_path m
                  [Makedirs (output_folder_of word_path); start_line word_path;
                   run_event word_path; Print line]) as (m' & tail & Hw & _ & Hb & _).
      exists m'. eexists. split; [exact Hw|].
      rewrite backend_events_app, Hb.
      destruct (String.eqb_spec os_name "nt") as [Hnt|Hnt].
      * right; right. repeat split; auto.
      * right; left. repeat split; auto.
    + eexists _, _. split; [reflexivity|].
      right; left. split; [reflexivity|]. split; [reflexivity|].
      right; right. eauto.
  - destruct (path_exists m (pdf_path_of word_path)) eqn:Hpdf.
    + eexists _, _. split; [reflexivity|].
      right; left. split; [reflexivity|]. split; [reflexivity|]. left; reflexivity.
    + destruct (fallback_shape w word_path m
                  [Makedirs (output_folder_of word_path); start_line word_path;
                   run_event word_path]) as (m' & tail & Hw & _ & Hb & _).
      exists m'. eexists. split; [exact Hw|].
      rewrite backend_events_app, Hb.
      destruct (String.eqb_spec os_name "nt") as [Hnt|Hnt].
      * right; right. repeat split; auto.
      * right; left. repeat split; auto.
Qed.

(** C5. In the events a run adds to the log the converter attempts are, in
    order: none, when the run stops before the converters (missing source,
    or the output folder cannot be made); the LibreOffice process alone, run
    once with a timeout of 120; or that process followed by one Word COM
    attempt. The Word COM attempt is there only on [os.name == 'nt'] and only
    when LibreOffice did not convert; LibreOffice is never run twice. *)
Theorem C5_backend_order `{E : Env} (word_path : string) (zoom_x zoom_y : Zoom)
    (w : World) :
  let w' := snd (word_to_base64image word_path zoom_x zoom_y w) in
  let new := new_events w w' in
  let attempt_A := Run (libreoffice_argv (output_folder_of word_path) word_path) 120 in
  let attempt_B := WordCom (abspath word_path) (abspath (pdf_path_of word_path)) 17 in
  log w' = (log w ++ new)%list /\
  ((conversion_reached w word_path = false /\ backend_events new = []) \/
   (conversion_reached w word_path = true /\
    backend_events new = [attempt_A] /\
    (libreoffice_converted w word_path = true \/ os_name <> "nt" \/
     exists e m, libreoffice_result w word_path = (Some e, m) /\
                 libreoffice_except e = None)) \/
   (conversion_reached w word_path = true /\
    backend_events new = [attempt_A; attempt_B] /\
    os_name = "nt" /\ libreoffice_converted w word_path = false)).
Proof.
  cbv zeta.
  split; [apply (word_to_base64image_log word_path zoom_x zoom_y w)|].
  rewrite word_to_base64image_stages.
  destruct (render_document_backends word_path w) as (m & new & Hw & Hcases).
  destruct (render_document word_path w) as [[[]|e] w1]; simpl in Hw; subst w1.
  - destruct (rasterize_and_compose_shape word_path zoom_x zoom_y (extend w m new))
      as (m' & new' & Hw' & _ & Hnone).
    rewrite Hw', extend_extend, new_events_extend, backend_events_app, Hnone, app_nil_r.
    exact Hcases.
  - simpl. rewrite new_events_extend. exact Hcases.
Qed.

Lemma effects_app (evs evs' : list Event) :
  effects (evs ++ evs') = (effects evs ++ effects evs')%list.
Proof. apply List.filter_app. Qed.

(** The rasterizer and compositor read the file system, never the log. *)
Lemma rasterize_and_compose_fs `{E : Env} (word_path : string) (zoom_x zoom_y : Zoom)
    (w1 w2 : World) :
  fs w1 = fs w2 ->
  exists res m new,
    rasterize_and_compose word_path zoom_x zoom_y w1 = (res, extend w1 m new) /\
    rasterize_and_compose word_path zoom_x zoom_y w2 = (res, extend w2 m new).
Proof.
  intros Hfs. rewrite !rasterize_and_compose_run. cbv zeta. rewrite <- Hfs.
  destruct (fitz_open (fs w1) (pdf_path_of word_path)) as [e|pdf].
  - eexists _, _, _. split; reflexivity.
  - destruct (render_pages pdf zoom_x zoom_y) as [|img0 rest];
      [eexists _, _, _; split; reflexivity|].
    destruct (jpeg_refuses (concatenate img0 rest));
      eexists _, _, _; split; reflexivity.
Qed.

(** The fallback does the same whatever was logged before it. *)
Lemma fallback_events `{E : Env} (w : World) (word_path : string)
    (m : gmap string node) (evs evs' : list Event) :
  exists res m' tail,
    fallback w word_path m evs = (res, extend w m' (evs ++ tail)) /\
    fallback w word_path m evs' = (res, extend w m' (evs' ++ tail)) /\
    Forall (renderer_event word_path) tail /\
    backend_events tail =
      (if String.eqb os_name "nt" then [word_com_event word_path] else []) /\
    (String.eqb os_name "nt" = false ->
     res = Raised (RuntimeError conversion_failed_msg)).
Proof.
  unfold fallback. destruct (String.eqb os_name "nt").
  - destruct (word_com (abspath word_path) (abspath (pdf_path_of word_path)) 17 m)
      as [[e|] m']; [destruct (is_Exception e)|].
    + eexists _, m', [_; _].
      split; [reflexivity|]. split; [reflexivity|].
      split; [repeat constructor|]. split; [reflexivity|discriminate].
    + eexists _, m', [_].
      split; [reflexivity|]. split; [reflexivity|].
      split; [repeat constructor|]. split; [reflexivity|discriminate].
    + eexists _, m', [_; _].
      split; [reflexivity|]. split; [reflexivity|].
      split; [repeat constructor|]. split; [reflexivity|discriminate].
  - exists (Raised (RuntimeError conversion_failed_msg)), m, [].
    rewrite !app_nil_r. repeat split; auto.
Qed.

Lemma fallback_with_subprocess_run (E : Env) run (w : World) (word_path : string)
    (m : gmap string node) (evs : list Event) :
  @fallback (with_subprocess_run E run) w word_path m evs = @fallback E w word_path m evs.
Proof. reflexivity. Qed.

Lemma rasterize_with_subprocess_run (E : Env) run (word_path : string)
    (zoom_x zoom_y : @Zoom E) (w : World) :
  @rasterize_and_compose (with_subprocess_run E run) word_path zoom_x zoom_y w =
  @rasterize_and_compose E word_path zoom_x zoom_y w.
Proof. reflexivity. Qed.

(** C9. When the LibreOffice process returns (exit status zero) and the
    expected PDF is not there, the LibreOffice block leaves [converted] false
    and prints nothing; the run then is the run after a caught failure of
    LibreOffice (tool not found, timeout, non-zero exit) that left the same
    files: same result, same final file system, same effects apart from the
    console line of the failure. So off Windows it ends in the conversion
    failure ([RuntimeError]), and on Windows Word COM is attempted. *)
Theorem C9_exit_zero_without_pdf `{E : Env} (word_path : string)
    (zoom_x zoom_y : Zoom) (w : World) (m : gmap string node) :
  conversion_reached w word_path = true ->
  libreoffice_result w word_path = (None, m) ->
  path_exists m (pdf_path_of word_path) = false ->
  let r := word_to_base64image word_path zoom_x zoom_y w in
  (forall w0 : World,
      fs w0 = fs_before_conversion w word_path ->
      convert_libreoffice word_path (output_folder_of word_path)
        (name_without_ext_of word_path) (pdf_path_of word_path) w0 =
      (Returned false, extend w0 m [run_event word_path])) /\
  (forall (e : Exn) (line : string),
      libreoffice_except e = Some line ->
      let r' := @word_to_base64image (with_subprocess_run E (fun _ _ _ => (Some e, m)))
                  word_path zoom_x zoom_y w in
      fst r' = fst r /\
      fs (snd r') = fs (snd r) /\
      effects (log (snd r')) = effects (log (snd r))) /\
  (os_name <> "nt" -> fst r = Raised (RuntimeError conversion_failed_msg)) /\
  (os_name = "nt" -> In (word_com_event word_path) (new_events w (snd r))).
Proof.
  intros Hreached Hres Hpdf r.
  unfold conversion_reached in Hreached.
  apply andb_prop in Hreached as [Hfound Hfolder].
  apply negb_true_iff in Hfolder.
  pose (pre := [Makedirs (output_folder_of word_path); start_line word_path]).
  destruct (fallback_events w word_path m (pre ++ [run_event word_path])
              (pre ++ [run_event word_path])) as (res & m' & tail & Hfb & _ & _ & Hb & Hposix).
  assert (Hdoc : render_document word_path w =
                 (res, extend w m' ((pre ++ [run_event word_path]) ++ tail))).
  { rewrite render_document_closed, Hfound, Hfolder, Hres, Hpdf. exact Hfb. }
  split; [|split; [|split]].
  - intros w0 Hw0. rewrite convert_libreoffice_run. cbv zeta.
    rewrite Hw0. unfold libreoffice_result in Hres. rewrite Hres, Hpdf. reflexivity.
  - intros e line Hexc r'.
    destruct (fallback_events w word_path m (pre ++ [run_event word_path])
                (pre ++ [run_event word_path; Print line]))
      as (res2 & m2 & tail2 & Hfb2 & Hfb2' & _).
    rewrite Hfb in Hfb2.
    assert (Hres2 : res2 = res) by congruence.
    assert (Hext : extend w m2 ((pre ++ [run_event word_path]) ++ tail2) =
                   extend w m' ((pre ++ [run_event word_path]) ++ tail)) by congruence.
    assert (Hm : m2 = m') by (apply (f_equal fs) in Hext; exact Hext).
    assert (Htail : tail2 = tail).
    { apply (f_equal log) in Hext; simpl in Hext.
      apply app_inv_head in Hext. congruence. }
    subst res2 m2 tail2. clear Hfb2 Hext.
    assert (Hdoc' : @render_document (with_subprocess_run E (fun _ _ _ => (Some e, m)))
                      word_path w =
                    (res, extend w m' ((pre ++ [run_event word_path; Print line]) ++ tail))).
    { rewrite (@render_document_closed (with_subprocess_run E (fun _ _ _ => (Some e, m)))).
      change (@path_exists (fs w) word_path) with (path_exists (fs w) word_path).
      rewrite Hfound.
      change (is_file (fs w)
                (@output_folder_of (with_subprocess_run E (fun _ _ _ => (Some e, m)))
                   word_path))
        with (is_file (fs w) (output_folder_of word_path)).
      rewrite Hfolder. cbn [negb].
      change (@libreoffice_result (with_subprocess_run E (fun _ _ _ => (Some e, m)))
                w word_path) with (Some e, m).
      cbv iota beta zeta.
      change (@libreoffice_except (with_subprocess_run E (fun _ _ _ => (Some e, m))) e)
        with (libreoffice_except e).
      rewrite Hexc. rewrite fallback_with_subprocess_run. exact Hfb2'. }
    subst r r'. rewrite !word_to_base64image_stages, Hdoc, Hdoc'.
    destruct res as [[]|err].
    + rewrite rasterize_with_subprocess_run.
      destruct (rasterize_and_compose_fs word_path zoom_x zoom_y
                  (extend w m' ((pre ++ [run_event word_path; Print line]) ++ tail))
                  (extend w m' ((pre ++ [run_event word_path]) ++ tail)) eq_refl)
        as (res3 & m3 & new3 & -> & ->).
      simpl. split; [reflexivity|]. split; [reflexivity|].
      rewrite !effects_app. reflexivity.
    + simpl. split; [reflexivity|]. split; [reflexivity|].
      rewrite !effects_app. reflexivity.
  - intros Hnt. subst r. rewrite word_to_base64image_stages, Hdoc.
    assert (Hfalse : String.eqb os_name "nt" = false) by (apply String.eqb_neq; exact Hnt).
    rewrite (Hposix Hfalse). reflexivity.
  - intros Hnt. subst r.
    pose proof (word_to_base64image_log word_path zoom_x zoom_y w) as [Hlog _].
    cbv zeta in Hlog.
    assert (Hin : In (word_com_event word_path) (backend_events tail)).
    { rewrite Hb. replace (String.eqb os_name "nt") with true
        by (symmetry; apply String.eqb_eq; exact Hnt). left; reflexivity. }
    apply List.filter_In in Hin as [Hin _].
    revert Hlog. rewrite word_to_base64image_stages, Hdoc.
    destruct res as [[]|err].
    + destruct (rasterize_and_compose_shape word_path zoom_x zoom_y
                  (extend w m' ((pre ++ [run_event word_path]) ++ tail)))
        as (m3 & new3 & Hw3 & _).
      rewrite Hw3, extend_extend, new_events_extend. intros _.
      apply in_or_app; left. apply in_or_app; right. exact Hin.
    + cbn [snd]. rewrite new_events_extend. intros _.
      apply in_or_app; right. exact Hin.
Qed.

Lemma sum_heights_take_mono (images : list Image) (i j : nat) (img : Image) :
  Forall (fun img => 0 <= height img) images ->
  (i < j)%nat ->
  images !! i = Some img ->
  sum_heights (take i images) + height img <= sum_heights (take j images).
Proof.
  intros Hh; revert i j; induction Hh as [|img0 rest Hh0 Hh IH]; intros i j Hij Hi;
    [easy|].
  destruct j as [|j]; [lia|]. destruct i as [|i]; simpl in *.
  - injection Hi as ->.
    pose proof (sum_heights_nonneg (take j rest) (Forall_take _ _ _ Hh)). lia.
  - specialize (IH i j ltac:(lia) Hi). lia.
Qed.

Lemma render_pages_length `{E : Env} (pdf : Document Zoom) (zoom_x zoom_y : Zoom) :
  length (render_pages pdf zoom_x zoom_y) = page_count pdf.
Proof. unfold render_pages. rewrite length_map, length_seq. reflexivity. Qed.

Lemma render_pages_lookup `{E : Env} (pdf : Document Zoom) (zoom_x zoom_y : Zoom)
    (i : nat) :
  (i < page_count pdf)%nat ->
  render_pages pdf zoom_x zoom_y !! i = Some (render_page pdf zoom_x zoom_y i).
Proof.
  intros Hi. unfold render_pages.
  change (map (render_page pdf zoom_x zoom_y) (seq 0 (page_count pdf)))
    with (render_page pdf zoom_x zoom_y <$> seq 0 (page_count pdf)).
  rewrite list_lookup_fmap, lookup_seq_lt by exact Hi. reflexivity.
Qed.

(** The heights of the images of pages [start .. start + count - 1] add up
    to the heights of their pixmaps. *)
Lemma sum_heights_take_pages `{E : Env} (pdf : Document Zoom) (zoom_x zoom_y : Zoom)
    (total start count : nat) :
  (count <= total)%nat ->
  sum_heights (take count (map (render_page pdf zoom_x zoom_y) (seq start total))) =
  foldr Z.add 0
    (map (fun j => pix_height (get_pixmap pdf j zoom_x zoom_y)) (seq start count)).
Proof.
  revert start total; induction count as [|count IH]; intros start total Hle.
  - rewrite take_0. reflexivity.
  - destruct total as [|total]; [lia|].
    cbn [seq map take sum_heights foldr].
    change (foldr (fun img acc => height img + acc) 0
              (take count (map (render_page pdf zoom_x zoom_y) (seq (S start) total))))
      with (sum_heights
              (take count (map (render_page pdf zoom_x zoom_y) (seq (S start) total)))).
    rewrite IH by lia. reflexivity.
Qed.

(** C6. Opening an [N]-page document yields [N] images, and image [i] is
    built from the pixmap of page [i] of the document: its size is that
    pixmap's and its pixels are that pixmap's samples. In the composite,
    page [i] starts at the sum of the pixmap heights of pages [0 .. i-1]
    (page 0 at the top), no later page starts above its end, and the samples
    of its pixmap show there pixel for pixel. Pixmap heights are not
    negative. *)
Theorem C6_page_order `{E : Env} (word_path : string) (zoom_x zoom_y : Zoom)
    (w1 : World) (pdf : Document Zoom) :
  fitz_open (fs w1) (pdf_path_of word_path) = inr pdf ->
  (forall i : nat,
      (i < page_count pdf)%nat -> 0 <= pix_height (get_pixmap pdf i zoom_x zoom_y)) ->
  let images := render_pages pdf zoom_x zoom_y in
  let pix := fun i : nat => get_pixmap pdf i zoom_x zoom_y in
  let top := fun i : nat =>
    foldr Z.add 0 (map (fun j => pix_height (pix j)) (seq 0 i)) in
  pdf_to_images (pdf_path_of word_path) zoom_x zoom_y w1 =
    (Returned images,
     extend w1 (fs w1) [FitzOpen (pdf_path_of word_path); FitzClose]) /\
  length images = page_count pdf /\
  (forall i : nat,
      (i < page_count pdf)%nat ->
      images !! i =
        Some (Image_frombytes (pix_width (pix i), pix_height (pix i)) (samples (pix i))) /\
      exists img,
        images !! i = Some img /\
        width img = pix_width (pix i) /\
        height img = pix_height (pix i) /\
        forall x y : Z,
          getpixel img x y =
          (sample (samples (pix i)) (3 * (y * pix_width (pix i) + x)),
           sample (samples (pix i)) (3 * (y * pix_width (pix i) + x) + 1),
           sample (samples (pix i)) (3 * (y * pix_width (pix i) + x) + 2))) /\
  forall (img0 : Image) (rest : list Image),
    images = img0 :: rest ->
    let composite := concatenate img0 rest in
    forall i : nat,
      (i < page_count pdf)%nat ->
      (forall j : nat,
          (i < j)%nat -> (j < page_count pdf)%nat ->
          top i + pix_height (pix i) <= top j) /\
      (forall a b : Z,
          0 <= a < pix_width (pix i) -> 0 <= b < pix_height (pix i) ->
          getpixel composite ((width composite - pix_width (pix i)) / 2 + a) (top i + b) =
          (sample (samples (pix i)) (3 * (b * pix_width (pix i) + a)),
           sample (samples (pix i)) (3 * (b * pix_width (pix i) + a) + 1),
           sample (samples (pix i)) (3 * (b * pix_width (pix i) + a) + 2))).
Proof.
  intros Hopen Hh images pix top.
  assert (Hlookup : forall i : nat,
             (i < page_count pdf)%nat ->
             images !! i =
             Some (Image_frombytes (pix_width (pix i), pix_height (pix i))
                     (samples (pix i)))).
  { intros i Hi. subst images. rewrite render_pages_lookup by exact Hi. reflexivity. }
  assert (Htop : forall i : nat,
             (i <= page_count pdf)%nat -> sum_heights (take i images) = top i).
  { intros i Hi. subst images top pix. unfold render_pages.
    apply sum_heights_take_pages. exact Hi. }
  assert (Hnonneg : Forall (fun img => 0 <= height img) images).
  { apply Forall_forall. intros img Hin.
    apply list_elem_of_lookup in Hin as [i Hi].
    assert (Hlt : (i < page_count pdf)%nat).
    { apply lookup_lt_Some in Hi. subst images.
      rewrite render_pages_length in Hi. exact Hi. }
    rewrite (Hlookup i Hlt) in Hi. injection Hi as <-. apply (Hh i Hlt). }
  split; [|split; [|split]].
  - unfold pdf_to_images, bind, emit, get_fs, ret, extend; simpl.
    rewrite Hopen. simpl. rewrite <- app_assoc. reflexivity.
  - apply render_pages_length.
  - intros i Hi. split; [apply Hlookup, Hi|].
    eexists. split; [apply Hlookup, Hi|]. repeat split.
  - intros img0 rest Himages composite i Hi. split.
    + intros j Hij Hj.
      rewrite <- (Htop i) by lia. rewrite <- (Htop j) by lia.
      apply (sum_heights_take_mono images i j
               (Image_frombytes (pix_width (pix i), pix_height (pix i))
                  (samples (pix i))) Hnonneg Hij (Hlookup i Hi)).
    + intros a b Ha Hb. subst composite.
      rewrite concatenate_width, concatenate_placements. cbv zeta.
      rewrite <- Himages, <- (Htop i) by lia.
      pose proof (paste_all_page (py_max (width img0) (map width rest)) images
                    (Image_new (py_max (width img0) (map width rest), sum_heights images)
                       white) 0 i
                    (Image_frombytes (pix_width (pix i), pix_height (pix i))
                       (samples (pix i))) a b Hnonneg (Hlookup i Hi) Ha Hb) as Hpix.
      rewrite Z.add_0_l in Hpix. exact Hpix.
Qed.

(** C4, as the code has it. When both backends fail (backend B also by not
    being applicable off Windows), the function raises [RuntimeError] (the
    spec's [ConversionError]) with one fixed message, whatever the reasons
    were; each reason that has a console line was printed during the run. *)
Theorem C4_conversion_error `{E : Env} (word_path : string) (zoom_x zoom_y : Zoom)
    (w : World) (ra rb : Reason) :
  conversion_fails w word_path ra rb ->
  let r := word_to_base64image word_path zoom_x zoom_y w in
  fst r = Raised (RuntimeError
                    "所有 Word → PDF 转换方式均失败，请检查 LibreOffice 或 Microsoft Office 安装") /\
  (forall line, reason_line ra = Some line -> In (Print line) (new_events w (snd r))) /\
  (forall line, reason_line rb = Some line -> In (Print line) (new_events w (snd r))).
Proof.
  intros (Hreached & Ha & Hb) r. subst r.
  unfold conversion_reached in Hreached.
  apply andb_prop in Hreached as [Hfound Hfolder].
  apply negb_true_iff in Hfolder.
  rewrite word_to_base64image_stages, render_document_closed, Hfound, Hfolder.
  cbn [negb]. cbv zeta.
  unfold libreoffice_reason in Ha.
  assert (Hfallback : forall m evs,
             word_com_reason word_path m = Some rb ->
             fst (fallback w word_path m evs) =
               Raised (RuntimeError conversion_failed_msg) /\
             exists m' tail,
               snd (fallback w word_path m evs) = extend w m' (evs ++ tail) /\
               forall line, reason_line rb = Some line -> In (Print line) tail).
  { intros m evs Hrb. unfold fallback, word_com_reason in *.
    destruct (String.eqb os_name "nt").
    - destruct (word_com (abspath word_path) (abspath (pdf_path_of word_path)) 17 m)
        as [[e|] m']; [|discriminate].
      assert (Hexc : is_Exception e = true)
        by (destruct e; try reflexivity; discriminate).
      rewrite Hexc.
      split; [reflexivity|]. eexists m', [_; _]. split; [reflexivity|].
      intros line Hline. right; left. f_equal.
      destruct e; try discriminate; injection Hrb as <-; simpl in *; congruence.
    - injection Hrb as <-. split; [reflexivity|]. exists m, [].
      rewrite app_nil_r. split; [reflexivity|]. discriminate. }
  destruct (libreoffice_result w word_path) as [[e|] m] eqn:Hres; cbn [snd] in Hb.
  - assert (Hline : exists line, libreoffice_except e = Some line /\
                                 reason_line ra = Some line).
    { destruct e; try discriminate; injection Ha as <-; simpl; eauto. }
    destruct Hline as (line & -> & Hline).
    destruct (Hfallback m
                [Makedirs (output_folder_of word_path); start_line word_path;
                 run_event word_path; Print line] Hb) as (Hr & m' & tail & Hw & Htail).
    change ([Makedirs (output_folder_of word_path); start_line word_path] ++
            [run_event word_path; Print line])%list
      with [Makedirs (output_folder_of word_path); start_line word_path;
            run_event word_path; Print line].
    destruct (fallback w word_path m
                [Makedirs (output_folder_of word_path); start_line word_path;
                 run_event word_path; Print line]) as [res w1].
    cbn [fst snd] in Hr, Hw. subst res w1. cbn [fst snd].
    rewrite new_events_extend. split; [reflexivity|]. split.
    + intros line' Hline'. apply in_or_app; left.
      rewrite Hline in Hline'. injection Hline' as <-. simpl; tauto.
    + intros line' Hline'. apply in_or_app; right. apply Htail, Hline'.
  - destruct (path_exists m (pdf_path_of word_path)); [discriminate|].
    injection Ha as <-.
    destruct (Hfallback m
                [Makedirs (output_folder_of word_path); start_line word_path;
                 run_event word_path] Hb) as (Hr & m' & tail & Hw & Htail).
    change ([Makedirs (output_folder_of word_path); start_line word_path] ++
            [run_event word_path])%list
      with [Makedirs (output_folder_of word_path); start_line word_path;
            run_event word_path].
    destruct (fallback w word_path m
                [Makedirs (output_folder_of word_path); start_line word_path;
                 run_event word_path]) as [res w1].
    cbn [fst snd] in Hr, Hw. subst res w1. cbn [fst snd].
    rewrite new_events_extend. split; [reflexivity|]. split.
    + discriminate.
    + intros line' Hline'. apply in_or_app; right. apply Htail, Hline'.
Qed.

(** ** The claims on the example host *)

Lemma C3_missing_source_witness :
  fs Demo.world !! "documents/missing.docx" = None /\
  @word_to_base64image (Demo.host Demo.silent) "documents/missing.docx" 2 2 Demo.world =
  (Raised (FileNotFoundError "Word 文件未找到: documents/missing.docx"), Demo.world).
Proof.
  split; [vm_compute; reflexivity|].
  apply (@C3_missing_source (Demo.host Demo.silent) "documents/missing.docx" 2 2 Demo.world).
  vm_compute; reflexivity.
Defined.

Lemma C2_empty_document_witness :
  @render_document (Demo.host (Demo.libreoffice_ok 0)) Demo.path Demo.world =
    (Returned tt, Demo.rendered 0) /\
  Demo.open_pdf (fs (Demo.rendered 0)) "documents/demo/demo.pdf" = inr (Demo.document 0) /\
  exists w',
    @word_to_base64image (Demo.host (Demo.libreoffice_ok 0)) Demo.path 2 2 Demo.world =
      (Raised (ValueError "PDF 中没有可转换的页面"), w') /\
    fs w' = fs (Demo.rendered 0) /\
    w' = extend (Demo.rendered 0) (fs (Demo.rendered 0))
           [Print "正在将 PDF 转换为图片并生成 base64: documents/demo/demo.pdf";
            FitzOpen "documents/demo/demo.pdf"; FitzClose] /\
    (forall path quality, ~ In (SaveJpeg path quality) (new_events Demo.world w')) /\
    (forall path, ~ In (WriteText path) (new_events Demo.world w')).
Proof.
  split; [vm_compute; reflexivity|]. split; [vm_compute; reflexivity|].
  apply (@C2_empty_document (Demo.host (Demo.libreoffice_ok 0)) Demo.path 2 2
           Demo.world (Demo.rendered 0) (Demo.document 0)).
  - vm_compute; reflexivity.
  - vm_compute; reflexivity.
  - reflexivity.
Defined.

Lemma C7_data_url_witness :
  @render_document (Demo.host (Demo.libreoffice_ok 3)) Demo.path Demo.world =
    (Returned tt, Demo.rendered 3) /\
  jpeg_refuses (concatenate (Demo.page 0) [Demo.page 1; Demo.page 2]) = None /\
  exists w',
    @word_to_base64image (Demo.host (Demo.libreoffice_ok 3)) Demo.path 2 2 Demo.world =
      (Returned ("documents/demo/demo.pdf", "documents/demo/img.jpg",
                 "documents/demo/base64.txt"), w') /\
    fs w' !! "documents/demo/base64.txt" =
      Some (File (list_byte_of_string "data:image/jpeg;base64,eJZf////")) /\
    In (WriteText "documents/demo/base64.txt") (new_events (Demo.rendered 3) w').
Proof.
  split; [vm_compute; reflexivity|]. split; [vm_compute; reflexivity|].
  apply (@C7_data_url (Demo.host (Demo.libreoffice_ok 3)) Demo.path 2 2
           Demo.world (Demo.rendered 3) (Demo.document 3)
           (Demo.page 0) [Demo.page 1; Demo.page 2]).
  - vm_compute; reflexivity.
  - vm_compute; reflexivity.
  - reflexivity.
  - vm_compute; reflexivity.
Defined.

Lemma C8_output_paths_witness :
  @word_to_base64image (Demo.host (Demo.libreoffice_ok 3)) Demo.path 2 2 Demo.world =
    (Returned ("documents/demo/demo.pdf", "documents/demo/img.jpg",
               "documents/demo/base64.txt"),
     snd (@word_to_base64image (Demo.host (Demo.libreoffice_ok 3)) Demo.path 2 2
            Demo.world)) /\
  forall (zoom_x2 zoom_y2 : Z) (w2 w2' : World) (paths2 : string * string * string),
    @word_to_base64image (Demo.host (Demo.libreoffice_ok 3)) Demo.path zoom_x2 zoom_y2 w2 =
      (Returned paths2, w2') ->
    paths2 = ("documents/demo/demo.pdf", "documents/demo/img.jpg",
              "documents/demo/base64.txt").
Proof.
  assert (Hrun :
    @word_to_base64image (Demo.host (Demo.libreoffice_ok 3)) Demo.path 2 2 Demo.world =
    (Returned ("documents/demo/demo.pdf", "documents/demo/img.jpg",
               "documents/demo/base64.txt"),
     snd (@word_to_base64image (Demo.host (Demo.libreoffice_ok 3)) Demo.path 2 2
            Demo.world))) by (vm_compute; reflexivity).
  split; [exact Hrun|].
  exact (proj1 (proj2 (@C8_output_paths (Demo.host (Demo.libreoffice_ok 3)) Demo.path 2 2
                         Demo.world _ _ Hrun))).
Defined.

Lemma C6_page_order_witness :
  Demo.open_pdf (fs (Demo.rendered 3)) "documents/demo/demo.pdf" = inr (Demo.document 3) /\
  (forall i : nat,
      (i < 3)%nat -> 0 <= pix_height (get_pixmap (Demo.document 3) i 2 2)) /\
  length (@render_pages (Demo.host (Demo.libreoffice_ok 3)) (Demo.document 3) 2 2) = 3%nat /\
  getpixel (concatenate (Demo.page 0) [Demo.page 1; Demo.page 2]) (20 + 0) (50 + 0) =
  (20, 20, 20).
Proof.
  assert (Hopen : Demo.open_pdf (fs (Demo.rendered 3)) "documents/demo/demo.pdf" =
                  inr (Demo.document 3)) by (vm_compute; reflexivity).
  assert (Hh : forall i : nat,
             (i < 3)%nat -> 0 <= pix_height (get_pixmap (Demo.document 3) i 2 2)).
  { intros i Hi. destruct i as [|[|[|i]]]; [vm_compute; discriminate..|lia]. }
  split; [exact Hopen|]. split; [exact Hh|].
  pose proof (@C6_page_order (Demo.host (Demo.libreoffice_ok 3)) Demo.path 2 2
                (Demo.rendered 3) (Demo.document 3) Hopen Hh) as (_ & Hlen & _ & Hpix).
  split; [exact Hlen|].
  destruct (Hpix (Demo.page 0) [Demo.page 1; Demo.page 2] eq_refl 1%nat
              ltac:(vm_compute; lia)) as (_ & Hshow).
  exact (Hshow 0 0 ltac:(vm_compute; split; congruence)
           ltac:(vm_compute; split; congruence)).
Defined.

Lemma C9_exit_zero_without_pdf_witness :
  @conversion_reached (Demo.host Demo.silent) Demo.world Demo.path = true /\
  @libreoffice_result (Demo.host Demo.silent) Demo.world Demo.path =
    (None, Demo.fs_folder) /\
  path_exists Demo.fs_folder "documents/demo/demo.pdf" = false /\
  fst (@word_to_base64image (Demo.host Demo.silent) Demo.path 2 2 Demo.world) =
    Raised (RuntimeError conversion_failed_msg) /\
  fst (@word_to_base64image (Demo.host (Demo.raises (TimeoutExpired "timed out")))
         Demo.path 2 2 Demo.world) =
  fst (@word_to_base64image (Demo.host Demo.silent) Demo.path 2 2 Demo.world).
Proof.
  assert (H1 : @conversion_reached (Demo.host Demo.silent) Demo.world Demo.path = true)
    by (vm_compute; reflexivity).
  assert (H2 : @libreoffice_result (Demo.host Demo.silent) Demo.world Demo.path =
               (None, Demo.fs_folder)) by (vm_compute; reflexivity).
  assert (H3 : path_exists Demo.fs_folder "documents/demo/demo.pdf" = false)
    by (vm_compute; reflexivity).
  split; [exact H1|]. split; [exact H2|]. split; [exact H3|].
  pose proof (@C9_exit_zero_without_pdf (Demo.host Demo.silent) Demo.path 2 2 Demo.world
                Demo.fs_folder H1 H2 H3) as (_ & Hsame & Hposix & _).
  split.
  - apply Hposix. discriminate.
  - exact (proj1 (Hsame (TimeoutExpired "timed out") "LibreOffice 转换超时" eq_refl)).
Defined.

Lemma C4_conversion_error_witness :
  @conversion_fails (Demo.host (Demo.raises (TimeoutExpired "timed out")))
    Demo.world Demo.path Timeout NotApplicable /\
  fst (@word_to_base64image (Demo.host (Demo.raises (TimeoutExpired "timed out")))
         Demo.path 2 2 Demo.world) =
    Raised (RuntimeError
              "所有 Word → PDF 转换方式均失败，请检查 LibreOffice 或 Microsoft Office 安装") /\
  In (Print "LibreOffice 转换超时")
    (new_events Demo.world
       (snd (@word_to_base64image (Demo.host (Demo.raises (TimeoutExpired "timed out")))
               Demo.path 2 2 Demo.world))).
Proof.
  assert (Hfails : @conversion_fails (Demo.host (Demo.raises (TimeoutExpired "timed out")))
                     Demo.world Demo.path Timeout NotApplicable)
    by (repeat split; vm_compute; reflexivity).
  split; [exact Hfails|].
  pose proof (@C4_conversion_error (Demo.host (Demo.raises (TimeoutExpired "timed out")))
                Demo.path 2 2 Demo.world Timeout NotApplicable Hfails) as (Hexn & Ha & _).
  split; [exact Hexn|]. apply Ha. reflexivity.
Defined.

(** C4, as the spec states it, fails: a missing tool and a timeout end in
    the very same exception, so nothing read off the exception tells the
    failure reasons. *)
Lemma C4_counterexample : ~ exists describe, error_aggregates_reasons describe.
Proof.
  intros [describe Hagg].
  destruct (Hagg (Demo.host (Demo.raises (TimeoutExpired "timed out")))
              Demo.world Demo.path 2 2 Timeout NotApplicable) as (e1 & He1 & Hd1).
  { repeat split; vm_compute; reflexivity. }
  destruct (Hagg (Demo.host (Demo.raises (FileNotFoundError "libreoffice")))
              Demo.world Demo.path 2 2 BackendNotFound NotApplicable) as (e2 & He2 & Hd2).
  { repeat split; vm_compute; reflexivity. }
  assert (H1 : fst (@word_to_base64image
                      (Demo.host (Demo.raises (TimeoutExpired "timed out")))
                      Demo.path 2 2 Demo.world) =
               Raised (RuntimeError conversion_failed_msg)) by (vm_compute; reflexivity).
  assert (H2 : fst (@word_to_base64image
                      (Demo.host (Demo.raises (FileNotFoundError "libreoffice")))
                      Demo.path 2 2 Demo.world) =
               Raised (RuntimeError conversion_failed_msg)) by (vm_compute; reflexivity).
  rewrite H1 in He1. rewrite H2 in He2.
  assert (He : e1 = e2) by congruence.
  rewrite He in Hd1. rewrite Hd1 in Hd2. discriminate.
Qed.

(** ** Further checks *)

(** The spec's geometry example: pages of 100x50, 80x60 and 120x40 give a
    120x150 composite with the pages at (10, 0), (20, 50) and (0, 110). *)
Example geometry_100_80_120 :
  let images := [Demo.blank 100 50; Demo.blank 80 60; Demo.blank 120 40] in
  let composite := concatenate (Demo.blank 100 50) [Demo.blank 80 60; Demo.blank 120 40] in
  (width composite, height composite) = (120, 150) /\
  map snd (placements 120 0 images) = [(10, 0); (20, 50); (0, 110)] /\
  getpixel composite 9 0 = white /\
  getpixel composite 10 0 = (0, 0, 0) /\
  getpixel composite 109 49 = (0, 0, 0) /\
  getpixel composite 110 49 = white /\
  getpixel composite 19 50 = white /\
  getpixel composite 0 110 = (0, 0, 0).
Proof. vm_compute. repeat split; reflexivity. Qed.

(** The docstring's example: [documents/demo.docx] gives [documents/demo/]
    with [demo.pdf], [img.jpg] and [base64.txt], and the effects in order. *)
Example demo_run :
  let r := @word_to_base64image (Demo.host (Demo.libreoffice_ok 3)) Demo.path 2 2
             Demo.world in
  fst r = Returned ("documents/demo/demo.pdf", "documents/demo/img.jpg",
                    "documents/demo/base64.txt") /\
  effects (log (snd r)) =
    [Makedirs "documents/demo";
     Run ["libreoffice"; "--headless"; "--convert-to"; "pdf"; "--outdir";
          "documents/demo"; "documents/demo.docx"] 120;
     FitzOpen "documents/demo/demo.pdf"; FitzClose;
     SaveJpeg "documents/demo/img.jpg" 95;
     WriteText "documents/demo/base64.txt"] /\
  fs (snd r) !! "documents/demo/img.jpg" =
    Some (File (Demo.toy_jpeg
                  (concatenate (Demo.page 0) [Demo.page 1; Demo.page 2]) 95)).
Proof. vm_compute. repeat split; reflexivity. Qed.

(** A source without extension is its own output folder: the folder cannot
    be made and no converter is started. *)
Example extensionless_source :
  let w := {| fs := {[ "documents/demo" := File Demo.docx ]}; log := [] |} in
  @word_to_base64image (Demo.host (Demo.libreoffice_ok 3)) "documents/demo" 2 2 w =
  (Raised (FileExistsError "[Errno 17] File exists: 'documents/demo'"),
   {| fs := fs w; log := [Makedirs "documents/demo"] |}).
Proof. vm_compute. reflexivity. Qed.

(** The spec's fallback test: on Windows, when LibreOffice is not installed,
    Word COM is attempted right after it, whatever [os.path] is. *)
Lemma word_com_after_missing_libreoffice `{E : Env} (word_path : string)
    (zoom_x zoom_y : Zoom) (w : World) (msg : string) (m : gmap string node) :
  os_name = "nt" ->
  conversion_reached w word_path = true ->
  libreoffice_result w word_path = (Some (FileNotFoundError msg), m) ->
  backend_events
    (new_events w (snd (word_to_base64image word_path zoom_x zoom_y w))) =
  [run_event word_path; word_com_event word_path].
Proof.
  intros Hnt Hreached Hres.
  rewrite word_to_base64image_stages.
  destruct (render_document_backends word_path w) as (m' & new & Hw & Hcases).
  assert (Hb : backend_events new = [run_event word_path; word_com_event word_path]).
  { destruct Hcases as [[Hno _]|[(_ & _ & Hwhy)|(_ & Hb & _)]].
    - congruence.
    - destruct Hwhy as [Hconv|[Hos|(e & m0 & He & Hexc)]].
      + unfold libreoffice_converted in Hconv. rewrite Hres in Hconv. discriminate.
      + contradiction.
      + rewrite Hres in He. injection He as <- _. discriminate.
    - exact Hb. }
  destruct (render_document word_path w) as [[[]|e] w1]; simpl in Hw; subst w1.
  - destruct (rasterize_and_compose_shape word_path zoom_x zoom_y (extend w m' new))
      as (m3 & new3 & Hw3 & _ & Hnone).
    rewrite Hw3, extend_extend, new_events_extend, backend_events_app, Hnone, app_nil_r.
    exact Hb.
  - cbn [snd]. rewrite new_events_extend. exact Hb.
Qed.

(** ** The batch loop *)

Section BatchRuns.

Context `{E : Env}.

Lemma reports_app evs evs' : reports (evs ++ evs') = (reports evs ++ reports evs')%list.
Proof. apply List.filter_app. Qed.

Lemma word_com_except_no_report (e : Exn) : is_report_line (word_com_except e) = false.
Proof. destruct e; reflexivity. Qed.

Lemma libreoffice_except_no_report (e : Exn) (line : string) :
  libreoffice_except e = Some line -> is_report_line line = false.
Proof. destruct e; simpl; intros [= <-]; reflexivity. Qed.

Lemma fallback_reports w (word_path : string) m evs :
  exists m' tail,
    snd (fallback w word_path m evs) = extend w m' (evs ++ tail) /\ reports tail = [].
Proof.
  unfold fallback. destruct (String.eqb os_name "nt").
  - destruct (word_com (abspath word_path) (abspath (pdf_path_of word_path)) 17 m)
      as [[e|] m']; [destruct (is_Exception e)|].
    + eexists m', [_; _]. split; [reflexivity|].
      unfold reports; simpl. rewrite word_com_except_no_report. reflexivity.
    + eexists m', [_]. split; reflexivity.
    + eexists m', [_; _]. split; reflexivity.
  - exists m, []. rewrite app_nil_r. split; reflexivity.
Qed.

Lemma render_document_reports (word_path : string) w :
  exists m new,
    snd (render_document word_path w) = extend w m new /\ reports new = [].
Proof.
  rewrite render_document_closed.
  destruct (path_exists (fs w) word_path); simpl.
  2:{ exists (fs w), []. rewrite extend_nil. split; reflexivity. }
  destruct (is_file (fs w) (output_folder_of word_path)).
  { eexists _, _. split; reflexivity. }
  destruct (libreoffice_result w word_path) as [[e|] m].
  - destruct (libreoffice_except e) as [line|] eqn:Hexc.
    + destruct (fallback_reports w word_path m
                  [Makedirs (output_folder_of word_path); start_line word_path;
                   run_event word_path; Print line]) as (m' & tail & Hw & Hnone).
      exists m'. eexists. split; [exact Hw|].
      rewrite reports_app, Hnone, app_nil_r. unfold reports; simpl.
      rewrite (libreoffice_except_no_report e line Hexc). reflexivity.
    + eexists _, _. split; reflexivity.
  - destruct (path_exists m (pdf_path_of word_path)).
    + eexists _, _. split; reflexivity.
    + destruct (fallback_reports w word_path m
                  [Makedirs (output_folder_of word_path); start_line word_path;
                   run_event word_path]) as (m' & tail & Hw & Hnone).
      exists m'. eexists. split; [exact Hw|].
      rewrite reports_app, Hnone. reflexivity.
Qed.

Lemma rasterize_and_compose_reports (word_path : string) (zoom_x zoom_y : Zoom) w :
  exists m new,
    snd (rasterize_and_compose word_path zoom_x zoom_y w) = extend w m new /\
    reports new = [].
Proof.
  rewrite rasterize_and_compose_run. cbv zeta.
  destruct (fitz_open (fs w) (pdf_path_of word_path)) as [e|pdf].
  - eexists _, _. split; reflexivity.
  - destruct (render_pages pdf zoom_x zoom_y) as [|img0 rest];
      [eexists _, _; split; reflexivity|].
    destruct (jpeg_refuses (concatenate img0 rest));
      eexists _, _; split; reflexivity.
Qed.

(** The function itself prints no report line. *)
Lemma word_to_base64image_reports (word_path : string) (zoom_x zoom_y : Zoom) w :
  exists m new,
    snd (word_to_base64image word_path zoom_x zoom_y w) = extend w m new /\
    reports new = [].
Proof.
  rewrite word_to_base64image_stages.
  destruct (render_document_reports word_path w) as (m & new & Hw & Hnone).
  destruct (render_document word_path w) as [[[]|e] w1]; cbn [snd] in Hw; subst w1.
  - destruct (rasterize_and_compose_reports word_path zoom_x zoom_y (extend w m new))
      as (m' & new' & Hw' & Hnone').
    exists m', (new ++ new')%list. rewrite Hw', extend_extend. split; [reflexivity|].
    rewrite reports_app, Hnone, Hnone'. reflexivity.
  - exists m, new. split; [reflexivity|exact Hnone].
Qed.

(** One pass of the loop body: it returns, having added one report line at
    the end of what the call logged, or the call raised something that is
    not an [Exception], which leaves the loop body as it is. *)
Lemma process_file_run (zoom : Zoom) (word_file : string) w :
  exists m new,
    snd (word_to_base64image word_file zoom zoom w) = extend w m new /\
    reports new = [] /\
    ((exists line,
         process_file zoom word_file w =
           (Returned tt, extend w m (new ++ [Print line])) /\
         is_report_line line = true) \/
     (exists e,
         process_file zoom word_file w = (Raised e, extend w m new) /\
         fst (word_to_base64image word_file zoom zoom w) = Raised e /\
         is_Exception e = false)).
Proof.
  destruct (word_to_base64image_reports word_file zoom zoom w)
    as (m & new & Hw & Hnone).
  exists m, new. split; [exact Hw|]. split; [exact Hnone|].
  unfold process_file, try_except, bind, print, emit.
  destruct (word_to_base64image word_file zoom zoom w) as [[[[pdf_p img_p] b64_p]|e] w1];
    cbn [snd] in Hw; subst w1.
  - left. eexists. split.
    + unfold extend; simpl. rewrite app_assoc. reflexivity.
    + reflexivity.
  - destruct (is_Exception e) eqn:Hexc.
    + left. eexists. split.
      * unfold extend; simpl. rewrite app_assoc. reflexivity.
      * reflexivity.
    + right. exists e. repeat split; auto.
Qed.

End BatchRuns.

(** The loop returns with one report line per entry, or is left by what is
    not an [Exception] with fewer. *)
Lemma main_loop_report_count `{E : Env} (zoom : Zoom) (files : list string) (w : World) :
  exists w',
    log w' = (log w ++ new_events w w')%list /\
    ((main_loop zoom files w = (Returned tt, w') /\
      length (reports (new_events w w')) = length files) \/
     (exists e,
         main_loop zoom files w = (Raised e, w') /\
         is_Exception e = false /\
         (length (reports (new_events w w')) < length files)%nat)).
Proof.
  revert w. induction files as [|word_file rest IH]; intros w.
  - exists w. unfold new_events. rewrite drop_all, app_nil_r.
    split; [reflexivity|]. left. split; reflexivity.
  - destruct (process_file_run zoom word_file w)
      as (m & new & _ & Hnone & [(line & Hrun & Hline)|(e & Hrun & _ & Hexc)]).
    + destruct (IH (extend w m (new ++ [Print line]))) as (w' & Hlog & Hcases).
      exists w'.
      assert (Hnew : new_events w w' =
                     ((new ++ [Print line]) ++
                      new_events (extend w m (new ++ [Print line])) w')%list).
      { unfold new_events at 1. rewrite Hlog. cbn [log extend].
        rewrite <- app_assoc, drop_app_length. reflexivity. }
      assert (Hcount : length (reports (new_events w w')) =
                       S (length (reports
                                    (new_events (extend w m (new ++ [Print line])) w')))).
      { rewrite Hnew, !reports_app, Hnone, !length_app.
        unfold reports at 2; simpl. rewrite Hline. reflexivity. }
      split.
      * rewrite Hnew, Hlog. cbn [log extend]. rewrite <- !app_assoc. reflexivity.
      * cbn [main_loop]. unfold bind. rewrite Hrun, Hcount.
        destruct Hcases as [[Hrest Hn]|(e & Hrest & Hexc & Hn)].
        -- left. split; [exact Hrest|]. simpl. rewrite Hn. reflexivity.
        -- right. exists e. split; [exact Hrest|]. split; [exact Hexc|]. simpl. lia.
    + exists (extend w m new). rewrite new_events_extend.
      split; [reflexivity|]. right. exists e.
      split; [cbn [main_loop]; unfold bind; rewrite Hrun; reflexivity|].
      split; [exact Hexc|]. rewrite Hnone. simpl. lia.
Qed.

(** X1. No [Exception] leaves the batch loop. The loop either returns,
    having printed exactly one report line ("完成: ..." or "处理失败 ...") per
    entry of the list, or it is left by an exception that is not an
    [Exception] ([KeyboardInterrupt], [SystemExit]), raised by one of the
    calls, having printed one report line for each entry before that one.
    The second case is met: when the call for the first entry raises what is
    not an [Exception], the loop is left by it in the world the call left,
    with no report line. *)
Theorem X1_main_loop_reports `{E : Env} (zoom : Zoom) (files : list string) (w : World) :
  (exists w',
      log w' = (log w ++ new_events w w')%list /\
      ((main_loop zoom files w = (Returned tt, w') /\
        length (reports (new_events w w')) = length files) \/
       (exists e,
           main_loop zoom files w = (Raised e, w') /\
           is_Exception e = false /\
           (length (reports (new_events w w')) < length files)%nat))) /\
  (forall (word_file : string) (rest : list string) (e : Exn),
      files = word_file :: rest ->
      fst (word_to_base64image word_file zoom zoom w) = Raised e ->
      is_Exception e = false ->
      main_loop zoom files w = (Raised e, snd (word_to_base64image word_file zoom zoom w)) /\
      reports (new_events w (snd (word_to_base64image word_file zoom zoom w))) = []).
Proof.
  split; [apply main_loop_report_count|].
  intros word_file rest e -> Hraised Hexc.
  destruct (word_to_base64image_reports word_file zoom zoom w) as (m & new & Hw & Hnone).
  split.
  - cbn [main_loop]. unfold bind at 1. unfold process_file, try_except.
    unfold bind at 1.
    destruct (word_to_base64image word_file zoom zoom w) as [[v|e'] w1];
      cbn [fst] in Hraised; [discriminate|].
    injection Hraised as ->. rewrite Hexc. reflexivity.
  - rewrite Hw, new_events_extend. exact Hnone.
Qed.

Lemma process_file_missing `{E : Env} (zoom : Zoom) (word_file : string) (w : World) :
  fs w !! word_file = None ->
  process_file zoom word_file w = (Returned tt, extend w (fs w) [missing_report word_file]).
Proof.
  intros Hmissing.
  unfold process_file, try_except, bind.
  rewrite word_to_base64image_stages, render_document_closed.
  unfold path_exists. rewrite Hmissing.
  rewrite bool_decide_false by (intros [x Hx]; discriminate).
  reflexivity.
Qed.

(** X2. Entries whose source is missing are only reported: a batch of
    missing sources returns, leaves the file system as it is, starts no
    converter and logs one "处理失败" line per entry, in the order of the
    list. *)
Theorem X2_main_loop_missing `{E : Env} (zoom : Zoom) (files : list string) (w : World) :
  Forall (fun word_file => fs w !! word_file = None) files ->
  main_loop zoom files w = (Returned tt, extend w (fs w) (map missing_report files)).
Proof.
  intros Hmissing; revert w Hmissing.
  induction files as [|word_file rest IH]; intros w Hmissing.
  - simpl. rewrite extend_nil. reflexivity.
  - apply Forall_cons in Hmissing as [Hfile Hrest].
    cbn [main_loop]. unfold bind. rewrite (process_file_missing _ _ _ Hfile).
    rewrite (IH (extend w (fs w) [missing_report word_file])) by exact Hrest.
    cbn [fs extend]. rewrite extend_extend. reflexivity.
Qed.

Lemma X2_main_loop_missing_witness :
  Forall (fun word_file => fs Demo.world !! word_file = None) ["a.docx"; "b/c.doc"] /\
  @main_loop (Demo.host Demo.silent) 2 ["a.docx"; "b/c.doc"] Demo.world =
  (Returned tt,
   extend Demo.world (fs Demo.world) [missing_report "a.docx"; missing_report "b/c.doc"]).
Proof.
  assert (H : Forall (fun word_file => fs Demo.world !! word_file = None)
                ["a.docx"; "b/c.doc"])
    by (repeat constructor; vm_compute; reflexivity).
  split; [exact H|].
  exact (@X2_main_loop_missing (Demo.host Demo.silent) 2 ["a.docx"; "b/c.doc"]
           Demo.world H).
Defined.

(** ** [posixpath]: what the path functions guarantee *)

Module posixpath_facts.

Import posixpath.

Lemma append_cons (c : ascii) (a b : string) :
  (String c a ++ b)%string = String c (a ++ b).
Proof. reflexivity. Qed.

Lemma append_nil_l (s : string) : (EmptyString ++ s)%string = s.
Proof. reflexivity. Qed.

Lemma append_nil_r (s : string) : (s ++ "")%string = s.
Proof.
  induction s as [|c s IH]; [reflexivity|]. rewrite append_cons, IH. reflexivity.
Qed.

Lemma append_assoc (a b c : string) : ((a ++ b) ++ c)%string = (a ++ (b ++ c))%string.
Proof.
  induction a as [|x a IH]; [reflexivity|]. rewrite !append_cons, IH. reflexivity.
Qed.

Lemma has_sep_app (a b : string) : has_sep (a ++ b) = has_sep a || has_sep b.
Proof.
  induction a as [|c a IH]; [reflexivity|]. rewrite append_cons. simpl.
  rewrite IH, orb_assoc. reflexivity.
Qed.

Lemma rsplit_concat (p : string) : (fst (rsplit p) ++ snd (rsplit p))%string = p.
Proof.
  induction p as [|c r IH]; [reflexivity|]. simpl.
  destruct (rsplit r) as [h t]. simpl in IH.
  destruct h as [|c' h'].
  - destruct (is_sep c); cbn [fst snd]; rewrite <- IH; reflexivity.
  - cbn [fst snd]. rewrite <- IH. reflexivity.
Qed.

Lemma rsplit_head_empty (p : string) : fst (rsplit p) = EmptyString -> has_sep p = false.
Proof.
  induction p as [|c r IH]; [reflexivity|]. simpl.
  destruct (rsplit r) as [h t]. destruct h as [|c' h']; [|discriminate].
  destruct (is_sep c); [discriminate|]. intros _. simpl in IH. rewrite IH; reflexivity.
Qed.

(** The base name holds no separator. *)
Lemma basename_no_sep (p : string) : has_sep (basename p) = false.
Proof.
  unfold basename. induction p as [|c r IH]; [reflexivity|]. simpl.
  destruct (rsplit r) as [h t] eqn:Hr. simpl in IH.
  destruct h as [|c' h']; [|exact IH].
  destruct (is_sep c) eqn:Hc; simpl; [exact IH|].
  rewrite Hc, IH. reflexivity.
Qed.

Lemma rsplit_dot_concat (s root ext : string) :
  rsplit_dot s = Some (root, ext) ->
  (root ++ ext)%string = s /\
  exists ext', ext = String extsep ext' /\ has_dot ext' = false.
Proof.
  revert root ext; induction s as [|c r IH]; intros root ext; [discriminate|]. simpl.
  destruct (rsplit_dot r) as [[root' ext0]|] eqn:Hr.
  - intros [= <- <-]. destruct (IH root' ext0 eq_refl) as [Hcat Hext].
    split; [rewrite append_cons, Hcat; reflexivity|exact Hext].
  - destruct (Ascii.eqb c extsep) eqn:Hc; [|discriminate].
    intros [= <- <-]. split; [reflexivity|].
    apply Ascii.eqb_eq in Hc; subst c. exists r. split; [reflexivity|].
    clear IH. induction r as [|c r IH]; [reflexivity|]. simpl in *.
    destruct (rsplit_dot r) as [[root' ext0]|]; [discriminate|].
    destruct (Ascii.eqb c extsep); [discriminate|]. simpl. apply IH. reflexivity.
Qed.

End posixpath_facts.

(** X3. [posixpath.splitext] only cuts: the root followed by the extension
    is the path again, and the extension is empty or one period followed by
    characters that are neither a period nor a separator. *)
Theorem X3_splitext_cuts (p : string) :
  (fst (posixpath.splitext p) ++ snd (posixpath.splitext p))%string = p /\
  (snd (posixpath.splitext p) = EmptyString \/
   exists ext',
     snd (posixpath.splitext p) = String posixpath.extsep ext' /\
     has_dot ext' = false /\
     has_sep ext' = false).
Proof.
  unfold posixpath.splitext.
  pose proof (posixpath_facts.rsplit_concat p) as Hcat.
  pose proof (posixpath_facts.basename_no_sep p) as Hsep.
  unfold posixpath.basename in Hsep.
  destruct (posixpath.rsplit p) as [head tail]. simpl in Hcat, Hsep.
  destruct (posixpath.rsplit_dot tail) as [[root ext]|] eqn:Hdot.
  - destruct (posixpath_facts.rsplit_dot_concat _ _ _ Hdot) as (Htail & ext' & -> & Hnodot).
    destruct (posixpath.all_dots root); simpl.
    + split; [apply posixpath_facts.append_nil_r|left; reflexivity].
    + split.
      * rewrite posixpath_facts.append_assoc, Htail. exact Hcat.
      * right. exists ext'. split; [reflexivity|]. split; [exact Hnodot|].
        rewrite <- Htail in Hsep. rewrite posixpath_facts.has_sep_app in Hsep.
        apply orb_false_elim in Hsep as [_ Hsep]. simpl in Hsep. exact Hsep.
  - simpl. split; [apply posixpath_facts.append_nil_r|left; reflexivity].
Qed.

Lemma posix_splitext_concat (p : string) :
  (fst (posixpath.splitext p) ++ snd (posixpath.splitext p))%string = p.
Proof.
  unfold posixpath.splitext.
  pose proof (posixpath_facts.rsplit_concat p) as Hcat.
  destruct (posixpath.rsplit p) as [head tail]. simpl in Hcat.
  destruct (posixpath.rsplit_dot tail) as [[root ext]|] eqn:Hdot.
  - destruct (posixpath_facts.rsplit_dot_concat _ _ _ Hdot) as (Htail & _).
    destruct (posixpath.all_dots root); simpl.
    + apply posixpath_facts.append_nil_r.
    + rewrite posixpath_facts.append_assoc, Htail. exact Hcat.
  - simpl. apply posixpath_facts.append_nil_r.
Qed.

(** The name without extension is one path component. *)
Lemma posix_stem_no_sep (p : string) :
  has_sep (fst (posixpath.splitext (posixpath.basename p))) = false.
Proof.
  pose proof (posixpath_facts.basename_no_sep p) as Hsep.
  rewrite <- (posix_splitext_concat (posixpath.basename p)) in Hsep.
  rewrite posixpath_facts.has_sep_app in Hsep.
  apply orb_false_elim in Hsep as [Hsep _]. exact Hsep.
Qed.

Lemma posix_join_relative (a b : string) :
  posixpath.starts_with_sep b = false ->
  posixpath.join a b = (a ++ join_sep a ++ b)%string.
Proof.
  intros Hb. unfold posixpath.join, join_sep. rewrite Hb.
  destruct (String.eqb a EmptyString || posixpath.ends_with_sep a)%bool; reflexivity.
Qed.

Lemma starts_with_sep_app (a b : string) :
  has_sep a = false ->
  posixpath.starts_with_sep b = false ->
  posixpath.starts_with_sep (a ++ b) = false.
Proof.
  destruct a as [|c a]; [intros _ Hb; exact Hb|].
  simpl. intros Ha _. apply orb_false_elim in Ha as [Hc _]. exact Hc.
Qed.

(** The name without extension is one component, but it can be [..]: for
    the source [docs/..] the output folder is [docs/..] and the image goes to
    [docs/../img.jpg], next to [docs] rather than under it. *)
Example paths_of_dotdot :
  @name_without_ext_of (Demo.host Demo.silent) "docs/.." = ".." /\
  @output_folder_of (Demo.host Demo.silent) "docs/.." = "docs/.." /\
  @image_path_of (Demo.host Demo.silent) "docs/.." = "docs/../img.jpg".
Proof. vm_compute. repeat split. Qed.

(** X4. On a posix host the three output paths are built by plain
    concatenation: the output folder is the source's directory, a separator
    where one is needed, and the name without extension; each artifact is
    that folder, a separator where one is needed, and the file name. The
    name without extension holds no separator. Nothing is said about where
    the folder points once the path is resolved: the name can be [..]. *)
Theorem X4_paths_under_folder (E : Env) (ab : string -> string) (word_path : string) :
  @os_path E = posix_ops ab ->
  let stem := name_without_ext_of word_path in
  let folder := output_folder_of word_path in
  has_sep stem = false /\
  folder = (posixpath.dirname word_path ++ join_sep (posixpath.dirname word_path) ++ stem)%string /\
  pdf_path_of word_path = (folder ++ join_sep folder ++ stem ++ ".pdf")%string /\
  image_path_of word_path = (folder ++ join_sep folder ++ "img.jpg")%string /\
  base64_txt_path_of word_path = (folder ++ join_sep folder ++ "base64.txt")%string.
Proof.
  intros Hops stem folder.
  subst stem folder.
  unfold pdf_path_of, image_path_of, base64_txt_path_of, output_folder_of,
    name_without_ext_of.
  rewrite Hops. cbn [join dirname basename splitext posix_ops].
  pose proof (posix_stem_no_sep word_path) as Hstem.
  split; [exact Hstem|].
  assert (Hfolder :
    posixpath.join (posixpath.dirname word_path)
      (fst (posixpath.splitext (posixpath.basename word_path))) =
    (posixpath.dirname word_path ++ join_sep (posixpath.dirname word_path) ++
     fst (posixpath.splitext (posixpath.basename word_path)))%string).
  { apply posix_join_relative.
    rewrite <- (posixpath_facts.append_nil_r
                  (fst (posixpath.splitext (posixpath.basename word_path)))).
    apply starts_with_sep_app; [exact Hstem|reflexivity]. }
  split; [exact Hfolder|].
  split; [|split].
  - apply posix_join_relative. apply starts_with_sep_app; [exact Hstem|reflexivity].
  - apply posix_join_relative. reflexivity.
  - apply posix_join_relative. reflexivity.
Qed.

Lemma X4_paths_under_folder_witness :
  @os_path (Demo.host Demo.silent) = posix_ops (posixpath.join "/home/user") /\
  @pdf_path_of (Demo.host Demo.silent) "documents/demo.docx" =
    ("documents/demo" ++ "/" ++ "demo" ++ ".pdf")%string.
Proof.
  split; [reflexivity|].
  exact (proj1 (proj2 (proj2 (X4_paths_under_folder (Demo.host Demo.silent)
                                (posixpath.join "/home/user") "documents/demo.docx"
                                eq_refl)))).
Defined.

(** X5. On a posix host, a source that is a regular file and has no
    extension is its own output folder: the function raises
    [FileExistsError] from [os.makedirs] and does nothing else, no converter
    is started. The path is as [posixpath] rebuilds it from its directory and
    base name. *)
Theorem X5_extensionless_source (E : Env) (ab : string -> string) (word_path : string)
    (zoom_x zoom_y : Zoom) (w : World) (content : list byte) :
  @os_path E = posix_ops ab ->
  posixpath.join (posixpath.dirname word_path) (posixpath.basename word_path) = word_path ->
  snd (posixpath.splitext (posixpath.basename word_path)) = EmptyString ->
  fs w !! word_path = Some (File content) ->
  word_to_base64image word_path zoom_x zoom_y w =
  (Raised (FileExistsError ("[Errno 17] File exists: '" ++ word_path ++ "'")%string),
   extend w (fs w) [Makedirs word_path]).
Proof.
  intros Hops Hnormal Hnoext Hfile.
  assert (Hfolder : output_folder_of word_path = word_path).
  { unfold output_folder_of, name_without_ext_of. rewrite Hops.
    cbn [join dirname basename splitext posix_ops].
    pose proof (posix_splitext_concat (posixpath.basename word_path)) as Hcat.
    rewrite Hnoext, posixpath_facts.append_nil_r in Hcat. rewrite Hcat. exact Hnormal. }
  rewrite word_to_base64image_stages, render_document_closed, Hfolder.
  unfold path_exists, is_file. rewrite Hfile.
  rewrite bool_decide_true by eauto. reflexivity.
Qed.

Lemma X5_extensionless_source_witness :
  posixpath.join (posixpath.dirname "documents/demo") (posixpath.basename "documents/demo") =
    "documents/demo" /\
  snd (posixpath.splitext (posixpath.basename "documents/demo")) = EmptyString /\
  @word_to_base64image (Demo.host (Demo.libreoffice_ok 3)) "documents/demo" 2 2
    {| fs := {[ "documents/demo" := File Demo.docx ]}; log := [] |} =
  (Raised (FileExistsError "[Errno 17] File exists: 'documents/demo'"),
   extend {| fs := {[ "documents/demo" := File Demo.docx ]}; log := [] |}
     {[ "documents/demo" := File Demo.docx ]} [Makedirs "documents/demo"]).
Proof.
  split; [reflexivity|]. split; [reflexivity|].
  assert (Hfile : fs {| fs := {[ "documents/demo" := File Demo.docx ]}; log := [] |}
                    !! "documents/demo" = Some (File Demo.docx))
    by (vm_compute; reflexivity).
  exact (X5_extensionless_source (Demo.host (Demo.libreoffice_ok 3))
           (posixpath.join "/home/user") "documents/demo" 2 2
           {| fs := {[ "documents/demo" := File Demo.docx ]}; log := [] |} Demo.docx
           eq_refl eq_refl eq_refl Hfile).
Defined.

(** ** Whole runs in terms of what the environment answers *)

(** X6. When the source exists, the output folder can be made, LibreOffice
    returns with the PDF in place, the PDF opens with at least one page and
    the JPEG writer accepts the composite (it has pixels and no side over
    65500), the function returns the three paths; it has written the JPEG of the
    composite and then the data URL of the same composite, Word COM was not
    attempted (on no platform), and its effects are, in order: make the
    folder, run LibreOffice, open and close the PDF, save the image, write
    the text. *)
Theorem X6_libreoffice_success `{E : Env} (word_path : string) (zoom_x zoom_y : Zoom)
    (w : World) (m : gmap string node) (pdf : Document Zoom)
    (img0 : Image) (rest : list Image) :
  conversion_reached w word_path = true ->
  libreoffice_result w word_path = (None, m) ->
  path_exists m (pdf_path_of word_path) = true ->
  fitz_open m (pdf_path_of word_path) = inr pdf ->
  render_pages pdf zoom_x zoom_y = img0 :: rest ->
  jpeg_refuses (concatenate img0 rest) = None ->
  let composite := concatenate img0 rest in
  exists w',
    word_to_base64image word_path zoom_x zoom_y w =
      (Returned (pdf_path_of word_path, image_path_of word_path,
                 base64_txt_path_of word_path), w') /\
    fs w' =
      <[base64_txt_path_of word_path := File (list_byte_of_string (data_url_of composite))]>
        (<[image_path_of word_path := File (jpeg_encode composite 95)]> m) /\
    (image_path_of word_path <> base64_txt_path_of word_path ->
     fs w' !! image_path_of word_path = Some (File (jpeg_encode composite 95))) /\
    effects (new_events w w') =
      [Makedirs (output_folder_of word_path); run_event word_path;
       FitzOpen (pdf_path_of word_path); FitzClose;
       SaveJpeg (image_path_of word_path) 95;
       WriteText (base64_txt_path_of word_path)].
Proof.
  intros Hreached Hres Hpdf Hopen Hpages Hsave composite.
  unfold conversion_reached in Hreached.
  apply andb_prop in Hreached as [Hfound Hfolder].
  apply negb_true_iff in Hfolder.
  eexists. split; [|split; [|split]].
  - rewrite word_to_base64image_stages, render_document_closed, Hfound, Hfolder, Hres, Hpdf.
    cbn [negb]. cbv zeta. rewrite rasterize_and_compose_run. cbn [fs extend].
    rewrite Hopen. cbv zeta. rewrite Hpages, Hsave, extend_extend. reflexivity.
  - reflexivity.
  - intros Hne. cbn [fs extend].
    rewrite lookup_insert_ne by (intros Heq; apply Hne; symmetry; exact Heq).
    apply lookup_insert_eq.
  - rewrite new_events_extend. reflexivity.
Qed.

Lemma X6_libreoffice_success_witness :
  @conversion_reached (Demo.host (Demo.libreoffice_ok 3)) Demo.world Demo.path = true /\
  exists w',
    @word_to_base64image (Demo.host (Demo.libreoffice_ok 3)) Demo.path 2 2 Demo.world =
      (Returned ("documents/demo/demo.pdf", "documents/demo/img.jpg",
                 "documents/demo/base64.txt"), w') /\
    fs w' !! "documents/demo/img.jpg" =
      Some (File (Demo.toy_jpeg (concatenate (Demo.page 0) [Demo.page 1; Demo.page 2]) 95)).
Proof.
  assert (H1 : @conversion_reached (Demo.host (Demo.libreoffice_ok 3)) Demo.world
                 Demo.path = true) by (vm_compute; reflexivity).
  split; [exact H1|].
  destruct (@X6_libreoffice_success (Demo.host (Demo.libreoffice_ok 3)) Demo.path 2 2
              Demo.world (fs (Demo.rendered 3)) (Demo.document 3)
              (Demo.page 0) [Demo.page 1; Demo.page 2] H1)
    as (w' & Hrun & _ & Himg & _).
  - vm_compute; reflexivity.
  - vm_compute; reflexivity.
  - vm_compute; reflexivity.
  - reflexivity.
  - vm_compute; reflexivity.
  - exists w'. split; [exact Hrun|]. apply Himg. vm_compute. discriminate.
Defined.

(** X7. What [subprocess.run] raises outside the three handled classes
    (tool not found, timeout, non-zero exit) leaves the function as it is:
    the run ends right after the process, Word COM is not attempted on any
    platform, and nothing of the later stages happens. *)
Theorem X7_unhandled_process_error `{E : Env} (word_path : string) (zoom_x zoom_y : Zoom)
    (w : World) (e : Exn) (m : gmap string node) :
  conversion_reached w word_path = true ->
  libreoffice_result w word_path = (Some e, m) ->
  libreoffice_except e = None ->
  word_to_base64image word_path zoom_x zoom_y w =
  (Raised e,
   extend w m [Makedirs (output_folder_of word_path); start_line word_path;
               run_event word_path]).
Proof.
  intros Hreached Hres Hexc.
  unfold conversion_reached in Hreached.
  apply andb_prop in Hreached as [Hfound Hfolder].
  apply negb_true_iff in Hfolder.
  rewrite word_to_base64image_stages, render_document_closed, Hfound, Hfolder, Hres, Hexc.
  reflexivity.
Qed.

Lemma X7_unhandled_process_error_witness :
  @conversion_reached (Demo.host (Demo.raises (Exception "[Errno 13] Permission denied")))
    Demo.world Demo.path = true /\
  fst (@word_to_base64image
         (Demo.host (Demo.raises (Exception "[Errno 13] Permission denied")))
         Demo.path 2 2 Demo.world) =
  Raised (Exception "[Errno 13] Permission denied").
Proof.
  assert (H1 : @conversion_reached
                 (Demo.host (Demo.raises (Exception "[Errno 13] Permission denied")))
                 Demo.world Demo.path = true) by (vm_compute; reflexivity).
  split; [exact H1|].
  rewrite (@X7_unhandled_process_error
             (Demo.host (Demo.raises (Exception "[Errno 13] Permission denied")))
             Demo.path 2 2 Demo.world (Exception "[Errno 13] Permission denied")
             Demo.fs_folder H1).
  - reflexivity.
  - vm_compute; reflexivity.
  - reflexivity.
Defined.

(** X8. When [fitz.open] raises, the function raises the same exception: the
    document is not closed (there is none), no image is composed and neither
    artifact is written; the file system stays as the PDF stage left it. *)
Theorem X8_open_error `{E : Env} (word_path : string) (zoom_x zoom_y : Zoom)
    (w w1 : World) (e : Exn) :
  render_document word_path w = (Returned tt, w1) ->
  fitz_open (fs w1) (pdf_path_of word_path) = inl e ->
  word_to_base64image word_path zoom_x zoom_y w =
  (Raised e,
   extend w1 (fs w1)
     [Print ("正在将 PDF 转换为图片并生成 base64: " ++ pdf_path_of word_path)%string;
      FitzOpen (pdf_path_of word_path)]).
Proof.
  intros Hdoc Hopen.
  rewrite word_to_base64image_stages, Hdoc, rasterize_and_compose_run, Hopen.
  reflexivity.
Qed.

Lemma X8_open_error_witness :
  @render_document Demo.host_unreadable Demo.path Demo.world =
    (Returned tt, Demo.rendered 3) /\
  @word_to_base64image Demo.host_unreadable Demo.path 2 2 Demo.world =
  (Raised (Exception "cannot open broken document"),
   extend (Demo.rendered 3) (fs (Demo.rendered 3))
     [Print "正在将 PDF 转换为图片并生成 base64: documents/demo/demo.pdf";
      FitzOpen "documents/demo/demo.pdf"]).
Proof.
  assert (H1 : @render_document Demo.host_unreadable Demo.path Demo.world =
               (Returned tt, Demo.rendered 3)) by (vm_compute; reflexivity).
  split; [exact H1|].
  exact (@X8_open_error Demo.host_unreadable Demo.path 2 2 Demo.world (Demo.rendered 3)
           (Exception "cannot open broken document") H1 eq_refl).
Defined.

(** X9. The function itself only makes the output folder and writes the
    image and the text: at any other path the file system after a run holds
    what it held before, as far as the two converters leave that path alone.
    So the source document is never modified by the function. *)
Theorem X9_frame `{E : Env} (word_path : string) (zoom_x zoom_y : Zoom) (w : World)
    (q : string) :
  q <> output_folder_of word_path ->
  q <> image_path_of word_path ->
  q <> base64_txt_path_of word_path ->
  (forall argv timeout m, snd (subprocess_run argv timeout m) !! q = m !! q) ->
  (forall src dst format m, snd (word_com src dst format m) !! q = m !! q) ->
  fs (snd (word_to_base64image word_path zoom_x zoom_y w)) !! q = fs w !! q.
Proof.
  intros Hfolder Himg Hb64 Hrun Hcom.
  assert (Hmk : fs_before_conversion w word_path !! q = fs w !! q).
  { unfold fs_before_conversion, fs_makedirs.
    destruct (fs w !! output_folder_of word_path); [reflexivity|].
    apply lookup_insert_ne. intros Heq; apply Hfolder; symmetry; exact Heq. }
  assert (Hres : snd (libreoffice_result w word_path) !! q = fs w !! q).
  { unfold libreoffice_result. rewrite Hrun. exact Hmk. }
  assert (Hfb : forall m evs,
             m !! q = fs w !! q ->
             fs (snd (fallback w word_path m evs)) !! q = fs w !! q).
  { intros m evs Hm. unfold fallback. destruct (String.eqb os_name "nt"); [|exact Hm].
    pose proof (Hcom (abspath word_path) (abspath (pdf_path_of word_path)) 17 m) as Hq.
    destruct (word_com (abspath word_path) (abspath (pdf_path_of word_path)) 17 m)
      as [[e|] m']; [destruct (is_Exception e)|]; cbn [snd fs extend] in *;
      congruence. }
  assert (Hdoc : fs (snd (render_document word_path w)) !! q = fs w !! q).
  { rewrite render_document_closed.
    destruct (path_exists (fs w) word_path); cbn [negb]; [|reflexivity].
    destruct (is_file (fs w) (output_folder_of word_path)); [reflexivity|].
    cbv zeta.
    destruct (libreoffice_result w word_path) as [[e|] m]; cbn [snd] in Hres.
    - destruct (libreoffice_except e); [apply Hfb; exact Hres|exact Hres].
    - destruct (path_exists m (pdf_path_of word_path)); [exact Hres|].
      apply Hfb; exact Hres. }
  rewrite word_to_base64image_stages.
  destruct (render_document word_path w) as [[[]|e] w1]; cbn [snd] in Hdoc;
    [|exact Hdoc].
  rewrite rasterize_and_compose_run. cbv zeta.
  destruct (fitz_open (fs w1) (pdf_path_of word_path)) as [e|pdf]; [exact Hdoc|].
  destruct (render_pages pdf zoom_x zoom_y) as [|img0 rest]; [exact Hdoc|].
  destruct (jpeg_refuses (concatenate img0 rest)); cbn [snd fs extend].
  - unfold fs_refused_save.
    destruct (fs w1 !! image_path_of word_path); [|exact Hdoc].
    rewrite lookup_insert_ne by (intros Heq; apply Himg; symmetry; exact Heq).
    exact Hdoc.
  - rewrite lookup_insert_ne by (intros Heq; apply Hb64; symmetry; exact Heq).
    rewrite lookup_insert_ne by (intros Heq; apply Himg; symmetry; exact Heq).
    exact Hdoc.
Qed.

Lemma X9_frame_witness :
  fs (snd (@word_to_base64image (Demo.host Demo.silent) Demo.path 2 2 Demo.world))
    !! "documents/demo.docx" =
  fs Demo.world !! "documents/demo.docx".
Proof.
  apply (@X9_frame (Demo.host Demo.silent) Demo.path 2 2 Demo.world "documents/demo.docx").
  - vm_compute. discriminate.
  - vm_compute. discriminate.
  - vm_compute. discriminate.
  - reflexivity.
  - reflexivity.
Defined.

(** X10. No page is clipped and every page is centred: page [i] lies between
    the left and right edge of the composite, its right margin is its left
    margin or one pixel more, and, heights not being negative, it lies
    between the top and the bottom edge. *)
Theorem X10_pages_fit (img0 : Image) (rest : list Image) (i : nat) (img : Image) :
  (img0 :: rest) !! i = Some img ->
  let composite := concatenate img0 rest in
  let x := (width composite - width img) / 2 in
  let y := sum_heights (take i (img0 :: rest)) in
  0 <= x /\
  x + width img <= width composite /\
  0 <= (width composite - (x + width img)) - x <= 1 /\
  (Forall (fun img => 0 <= height img) (img0 :: rest) ->
   0 <= y /\ y + height img <= height composite).
Proof.
  intros Hi composite x y. subst composite x y.
  rewrite concatenate_width, concatenate_height.
  assert (Hle : width img <= py_max (width img0) (map width rest)).
  { destruct i as [|i]; simpl in Hi.
    - injection Hi as ->. apply py_max_ge_init.
    - apply py_max_upper, in_map, list_elem_of_In.
      eapply list_elem_of_lookup_2; exact Hi. }
  set (W := py_max (width img0) (map width rest)) in *.
  pose proof (Z.div_mod (W - width img) 2 ltac:(lia)) as Hdiv.
  pose proof (Z.mod_pos_bound (W - width img) 2 ltac:(lia)) as Hmod.
  split; [apply Z.div_pos; lia|]. split; [lia|]. split; [lia|].
  intros Hh. split.
  - apply sum_heights_nonneg, Forall_take, Hh.
  - rewrite <- (take_drop i (img0 :: rest)) at 2.
    assert (Hsplit : forall a b, sum_heights (a ++ b) = sum_heights a + sum_heights b).
    { intros a b. induction a as [|h a IH]; simpl; [reflexivity|]. rewrite IH; lia. }
    rewrite Hsplit.
    rewrite (drop_S _ _ _ Hi).
    change (sum_heights (img :: drop (S i) (img0 :: rest)))
      with (height img + sum_heights (drop (S i) (img0 :: rest))).
    pose proof (sum_heights_nonneg (drop (S i) (img0 :: rest))
                  (Forall_drop _ _ _ Hh)). lia.
Qed.

Lemma X10_pages_fit_witness :
  [Demo.blank 100 50; Demo.blank 81 60; Demo.blank 120 40] !! 1%nat =
    Some (Demo.blank 81 60) /\
  0 <= (120 - 81) / 2 /\ (120 - 81) / 2 + 81 <= 120.
Proof.
  split; [reflexivity|].
  pose proof (X10_pages_fit (Demo.blank 100 50) [Demo.blank 81 60; Demo.blank 120 40]
                1%nat (Demo.blank 81 60) eq_refl) as (H0 & H1 & _).
  split; [exact H0|exact H1].
Defined.

(** ** base64: what the encoding guarantees *)

Module base64_facts.

Local Open Scope N_scope.

(** Lists by groups of three, as the encoder reads them. *)
Lemma list_ind3 {A} (P : list A -> Prop) :
  P [] -> (forall a, P [a]) -> (forall a b, P [a; b]) ->
  (forall a b c l, P l -> P (a :: b :: c :: l)) ->
  forall l, P l.
Proof.
  intros H0 H1 H2 H3.
  assert (H : forall l, P l /\ (forall a, P (a :: l)) /\ (forall a b, P (a :: b :: l))).
  { induction l as [|x l (IH0 & IH1 & IH2)]; [auto|].
    split; [apply IH1|]. split; [intros a; apply IH2|].
    intros a b. apply H3, IH0. }
  intros l. apply H.
Qed.

Lemma small_cases (P : N -> Prop) :
  (forall k : nat, (k < 64)%nat -> P (N.of_nat k)) -> forall n, n < 64 -> P n.
Proof.
  intros H n Hn. rewrite <- (N2Nat.id n). apply H. lia.
Qed.

Lemma land_63 (n : N) : N.land n 63 = n mod 64.
Proof. change 63 with (N.ones 6). rewrite N.land_ones. reflexivity. Qed.

Lemma b64_digit_mod (n : N) : b64_digit n = b64_digit (n mod 64).
Proof.
  unfold b64_digit. rewrite !land_63, N.Div0.mod_mod. reflexivity.
Qed.

Lemma b64_digit_facts (n : N) :
  n < 64 ->
  b64_index (b64_digit n) = n /\ is_pad (b64_digit n) = false /\
  Byte.to_N (b64_digit n) < 128.
Proof.
  revert n. apply small_cases. intros k Hk.
  do 64 (destruct k as [|k]; [vm_compute; auto|]). lia.
Qed.

Lemma b64_index_digit (n : N) : b64_index (b64_digit n) = n mod 64.
Proof.
  rewrite b64_digit_mod. apply b64_digit_facts. apply N.mod_lt. discriminate.
Qed.

Lemma b64_digit_not_pad (n : N) : is_pad (b64_digit n) = false.
Proof.
  rewrite b64_digit_mod. apply b64_digit_facts. apply N.mod_lt. discriminate.
Qed.

Lemma b64_digit_ascii (n : N) : Byte.to_N (b64_digit n) < 128.
Proof.
  rewrite b64_digit_mod. apply b64_digit_facts. apply N.mod_lt. discriminate.
Qed.

Lemma lor_mul_add (x y k : N) : y < 2 ^ k -> N.lor (x * 2 ^ k) y = x * 2 ^ k + y.
Proof.
  intros Hy.
  assert (Hland : N.land (x * 2 ^ k) y = 0).
  { apply N.bits_inj. intros i. rewrite N.land_spec, N.bits_0.
    destruct (N.lt_ge_cases i k) as [Hi|Hi].
    - rewrite <- N.shiftl_mul_pow2, N.shiftl_spec_low by exact Hi. reflexivity.
    - replace (N.testbit y i) with false; [apply andb_false_r|].
      symmetry. apply N.testbit_false. rewrite N.div_small; [reflexivity|].
      apply N.lt_le_trans with (2 ^ k); [exact Hy|].
      apply N.pow_le_mono_r; [discriminate|exact Hi]. }
  rewrite <- N.lxor_lor by exact Hland. symmetry. apply N.add_nocarry_lxor. exact Hland.
Qed.

Lemma byte_lt (b : byte) : Byte.to_N b < 256.
Proof. pose proof (Byte.to_N_bounded b). lia. Qed.

Lemma byte_of_to_N (b : byte) : byte_of_N (Byte.to_N b) = b.
Proof. unfold byte_of_N. rewrite Byte.of_to_N. reflexivity. Qed.

(** The 24 bits of a group of three bytes. *)
Lemma group_bits (a b c : byte) :
  N.lor (N.lor (N.shiftl (Byte.to_N a) 16) (N.shiftl (Byte.to_N b) 8)) (Byte.to_N c) =
  Byte.to_N a * 65536 + Byte.to_N b * 256 + Byte.to_N c.
Proof.
  pose proof (byte_lt a). pose proof (byte_lt b). pose proof (byte_lt c).
  rewrite !N.shiftl_mul_pow2.
  rewrite (lor_mul_add (Byte.to_N a) (Byte.to_N b * 2 ^ 8) 16)
    by (change (2 ^ 8) with 256; change (2 ^ 16) with 65536; lia).
  replace (Byte.to_N a * 2 ^ 16 + Byte.to_N b * 2 ^ 8)
    with ((Byte.to_N a * 256 + Byte.to_N b) * 2 ^ 8)
    by (change (2 ^ 8) with 256; change (2 ^ 16) with 65536; lia).
  rewrite lor_mul_add by (change (2 ^ 8) with 256; lia).
  change (2 ^ 8) with 256. lia.
Qed.

Lemma pair_bits (a b : byte) :
  N.lor (N.shiftl (Byte.to_N a) 16) (N.shiftl (Byte.to_N b) 8) =
  Byte.to_N a * 65536 + Byte.to_N b * 256.
Proof.
  pose proof (byte_lt a). pose proof (byte_lt b).
  rewrite !N.shiftl_mul_pow2.
  rewrite (lor_mul_add (Byte.to_N a) (Byte.to_N b * 2 ^ 8) 16)
    by (change (2 ^ 8) with 256; change (2 ^ 16) with 65536; lia).
  reflexivity.
Qed.

Ltac to_Z :=
  repeat match goal with
         | H : (_ < _)%N |- _ => apply N2Z.inj_lt in H
         end;
  apply N2Z.inj;
  repeat (rewrite ?N2Z.inj_add, ?N2Z.inj_mul, ?N2Z.inj_div, ?N2Z.inj_mod);
  cbn [Z.of_N];
  repeat match goal with
         | |- context [Z.of_N ?x] =>
             pose proof (N2Z.is_nonneg x); generalize dependent (Z.of_N x); intros
         end;
  Z.div_mod_to_equations; lia.

Lemma group_arith (A B C : N) :
  A < 256 -> B < 256 -> C < 256 ->
  let n := A * 65536 + B * 256 + C in
  let n' := (n / 262144) mod 64 * 262144 + (n / 4096) mod 64 * 4096 +
            (n / 64) mod 64 * 64 + n mod 64 in
  n' / 65536 = A /\ (n' / 256) mod 256 = B /\ n' mod 256 = C.
Proof.
  intros HA HB HC n n'.
  assert (Hn : n' = n) by (subst n n'; to_Z).
  rewrite Hn. subst n. repeat split; to_Z.
Qed.

Lemma single_arith (A : N) :
  A < 256 ->
  let n := A * 65536 in
  ((n / 262144) mod 64 * 262144 + (n / 4096) mod 64 * 4096 + 0 * 64 + 0) / 65536 = A.
Proof. intros HA n. subst n. to_Z. Qed.

Lemma pair_arith (A B : N) :
  A < 256 -> B < 256 ->
  let n := A * 65536 + B * 256 in
  let n' := (n / 262144) mod 64 * 262144 + (n / 4096) mod 64 * 4096 +
            (n / 64) mod 64 * 64 + 0 in
  n' / 65536 = A /\ (n' / 256) mod 256 = B.
Proof.
  intros HA HB n n'.
  assert (Hn : n' = n) by (subst n n'; to_Z).
  rewrite Hn. subst n. split; to_Z.
Qed.

Lemma b64decode_encode (s : list byte) : b64decode (b64encode s) = s.
Proof.
  induction s as [|a|a b|a b c l IH] using list_ind3.
  - reflexivity.
  - cbn [b64encode]. cbv zeta. cbn [b64decode]. cbv zeta.
    change (is_pad b64_pad) with true. cbv iota.
    change (b64_index b64_pad) with 0.
    rewrite !b64_index_digit, !N.shiftr_div_pow2, N.shiftl_mul_pow2.
    change (2 ^ 18) with 262144. change (2 ^ 12) with 4096. change (2 ^ 16) with 65536.
    rewrite (single_arith _ (byte_lt a)), byte_of_to_N. reflexivity.
  - cbn [b64encode]. cbv zeta. cbn [b64decode]. cbv zeta.
    rewrite b64_digit_not_pad. change (is_pad b64_pad) with true. cbv iota.
    change (b64_index b64_pad) with 0.
    rewrite !b64_index_digit, !N.shiftr_div_pow2, pair_bits.
    change (2 ^ 18) with 262144. change (2 ^ 12) with 4096. change (2 ^ 6) with 64.
    destruct (pair_arith _ _ (byte_lt a) (byte_lt b)) as [-> ->].
    rewrite !byte_of_to_N. reflexivity.
  - cbn [b64encode]. cbv zeta. cbn [b64decode]. cbv zeta.
    rewrite !b64_digit_not_pad. cbv iota.
    rewrite !b64_index_digit, !N.shiftr_div_pow2, group_bits.
    change (2 ^ 18) with 262144. change (2 ^ 12) with 4096. change (2 ^ 6) with 64.
    destruct (group_arith _ _ _ (byte_lt a) (byte_lt b) (byte_lt c)) as (-> & -> & ->).
    rewrite !byte_of_to_N, IH. reflexivity.
Qed.

Lemma b64encode_length (s : list byte) :
  length (b64encode s) = (4 * ((length s + 2) / 3))%nat.
Proof.
  induction s as [|a|a b|a b c l IH] using list_ind3; try reflexivity.
  cbn [b64encode]. cbv zeta. cbn [length]. rewrite IH.
  replace (S (S (S (length l))) + 2)%nat with (length l + 2 + 1 * 3)%nat by lia.
  rewrite Nat.div_add by discriminate. lia.
Qed.

Lemma b64encode_ascii (s : list byte) :
  Forall (fun c => Byte.to_N c < 128) (b64encode s).
Proof.
  induction s as [|a|a b|a b c l IH] using list_ind3.
  - constructor.
  - cbn [b64encode]. cbv zeta.
    repeat (constructor; [first [apply b64_digit_ascii | reflexivity]|]). constructor.
  - cbn [b64encode]. cbv zeta.
    repeat (constructor; [first [apply b64_digit_ascii | reflexivity]|]). constructor.
  - cbn [b64encode]. cbv zeta.
    repeat (constructor; [apply b64_digit_ascii|]). exact IH.
Qed.

End base64_facts.

Lemma list_byte_of_string_app (a b : string) :
  list_byte_of_string (a ++ b) = (list_byte_of_string a ++ list_byte_of_string b)%list.
Proof.
  induction a as [|c a IH]; [reflexivity|].
  rewrite posixpath_facts.append_cons. cbn [list_byte_of_string map list_ascii_of_string].
  unfold list_byte_of_string in *. cbn [list_ascii_of_string map]. rewrite IH. reflexivity.
Qed.

Lemma length_list_byte_of_string (s : string) :
  length (list_byte_of_string s) = String.length s.
Proof.
  unfold list_byte_of_string. rewrite length_map.
  induction s as [|c s IH]; simpl; [|rewrite IH]; reflexivity.
Qed.

(** X11. The data URL is the prefix followed by a payload that decodes,
    as base64, to the JPEG bytes of the composite: the text artifact holds
    the image, nothing of it is lost. *)
Theorem X11_data_url_round_trip `{E : Env} (concatenated : Image) :
  exists payload : string,
    data_url_of concatenated = ("data:image/jpeg;base64," ++ payload)%string /\
    b64decode (list_byte_of_string payload) = jpeg_encode concatenated 95.
Proof.
  exists (string_of_list_byte (b64encode (jpeg_encode concatenated 95))).
  split; [reflexivity|].
  rewrite list_byte_of_string_of_list_byte. apply base64_facts.b64decode_encode.
Qed.

(** X12. The data URL has 23 characters of prefix and four characters for
    every group of up to three JPEG bytes, and all of them are ASCII, so its
    UTF-8 encoding writes one byte per character. *)
Theorem X12_data_url_shape `{E : Env} (concatenated : Image) :
  length (list_byte_of_string (data_url_of concatenated)) =
    (23 + 4 * ((length (jpeg_encode concatenated 95) + 2) / 3))%nat /\
  Forall (fun c => (Byte.to_N c < 128)%N) (list_byte_of_string (data_url_of concatenated)).
Proof.
  unfold data_url_of. cbv zeta. rewrite list_byte_of_string_app.
  rewrite list_byte_of_string_of_list_byte. split.
  - rewrite length_app, base64_facts.b64encode_length. reflexivity.
  - apply Forall_app. split; [|apply base64_facts.b64encode_ascii].
    repeat (constructor; [reflexivity|]). constructor.
Qed.

(** X13. [b64encode] loses nothing and pads to groups of four: decoding
    gives the bytes back, whatever their number, and the output has four
    characters for every group of up to three bytes. *)
Theorem X13_b64encode_round_trip (s : list byte) :
  b64decode (b64encode s) = s /\
  length (b64encode s) = (4 * ((length s + 2) / 3))%nat.
Proof.
  split; [apply base64_facts.b64decode_encode|apply base64_facts.b64encode_length].
Qed.

(** X14. A document of one page gives the page itself: the composite has
    the page's size and, inside it, the page's pixels (no offset, no
    padding). *)
Theorem X14_single_page (img : Image) :
  let composite := concatenate img [] in
  width composite = width img /\
  height composite = height img /\
  forall a b : Z,
    0 <= a < width img -> 0 <= b < height img ->
    getpixel composite a b = getpixel img a b.
Proof.
  cbv zeta. split; [apply concatenate_width|]. split.
  - rewrite concatenate_height. simpl. lia.
  - intros a b Ha Hb. rewrite concatenate_placements. cbv zeta.
    assert (Hh : Forall (fun img => 0 <= height img) [img])
      by (constructor; [lia|constructor]).
    pose proof (paste_all_page (py_max (width img) (map width [])) [img]
                  (Image_new (py_max (width img) (map width []), sum_heights [img]) white)
                  0 0%nat img a b Hh eq_refl Ha Hb) as Hpix.
    cbn [py_max map fold_left take sum_heights foldr] in Hpix.
    rewrite Z.sub_diag in Hpix. change (0 / 2) with 0 in Hpix.
    rewrite !Z.add_0_l in Hpix. exact Hpix.
Qed.

Lemma jpeg_refuses_Exception (im : Image) (e : Exn) :
  jpeg_refuses im = Some e -> is_Exception e = true.
Proof.
  unfold jpeg_refuses.
  destruct ((width im =? 0) || (height im =? 0))%bool; [intros [= <-]; reflexivity|].
  destruct ((65500 <? width im) || (65500 <? height im))%bool; [|discriminate].
  intros [= <-]; reflexivity.
Qed.

(** With such collaborators the function raises [Exception]s only. *)
Lemma word_to_base64image_raises `{E : Env} (word_path : string)
    (zoom_x zoom_y : Zoom) (w : World) (e : Exn) :
  raise_only_Exceptions ->
  fst (word_to_base64image word_path zoom_x zoom_y w) = Raised e ->
  is_Exception e = true.
Proof.
  intros (Hrun & Hcom & Hopen).
  assert (Hfb : forall m evs e0,
             fst (fallback w word_path m evs) = Raised e0 -> is_Exception e0 = true).
  { intros m evs e0. unfold fallback.
    destruct (String.eqb os_name "nt"); [|intros [= <-]; reflexivity].
    pose proof (Hcom (abspath word_path) (abspath (pdf_path_of word_path)) 17 m) as Hq.
    destruct (word_com (abspath word_path) (abspath (pdf_path_of word_path)) 17 m)
      as [[e1|] m']; [|discriminate].
    rewrite (Hq e1 eq_refl). intros [= <-]; reflexivity. }
  assert (Hdoc : forall e0,
             fst (render_document word_path w) = Raised e0 -> is_Exception e0 = true).
  { intros e0. rewrite render_document_closed.
    destruct (path_exists (fs w) word_path); cbn [negb];
      [|intros [= <-]; reflexivity].
    destruct (is_file (fs w) (output_folder_of word_path));
      [intros [= <-]; reflexivity|].
    cbv zeta.
    pose proof (Hrun (libreoffice_argv (output_folder_of word_path) word_path) 120
                  (fs_before_conversion w word_path)) as Hq.
    fold (libreoffice_result w word_path) in Hq.
    destruct (libreoffice_result w word_path) as [[e1|] m].
    - destruct (libreoffice_except e1); [apply Hfb|].
      intros [= <-]. apply Hq; reflexivity.
    - destruct (path_exists m (pdf_path_of word_path)); [discriminate|apply Hfb]. }
  rewrite word_to_base64image_stages.
  destruct (render_document word_path w) as [[[]|e0] w1]; cbn [fst] in Hdoc.
  - rewrite rasterize_and_compose_run. cbv zeta.
    pose proof (Hopen (fs w1) (pdf_path_of word_path)) as Hq.
    destruct (fitz_open (fs w1) (pdf_path_of word_path)) as [e1|pdf].
    + intros [= <-]. apply Hq; reflexivity.
    + destruct (render_pages pdf zoom_x zoom_y) as [|img0 rest];
        [intros [= <-]; reflexivity|].
      destruct (jpeg_refuses (concatenate img0 rest)) as [e1|] eqn:Hsave;
        [|discriminate].
      intros [= <-]. exact (jpeg_refuses_Exception _ _ Hsave).
  - intros [= <-]. apply Hdoc; reflexivity.
Qed.

(** X15. When the collaborators raise nothing outside [Exception], no entry
    stops the loop: it returns for every list, and on [files1 ++ files2] it
    is the loop on [files1] followed by the loop on [files2] in the world
    the first leaves. *)
Theorem X15_main_loop_app `{E : Env} (zoom : Zoom) (files1 files2 : list string)
    (w : World) :
  raise_only_Exceptions ->
  fst (main_loop zoom files1 w) = Returned tt /\
  main_loop zoom (files1 ++ files2) w =
  main_loop zoom files2 (snd (main_loop zoom files1 w)).
Proof.
  intros Honly. revert w.
  induction files1 as [|word_file rest IH]; intros w; [split; reflexivity|].
  destruct (process_file_run zoom word_file w)
    as (m & new & _ & _ & [(line & Hrun & _)|(e & _ & Hraised & Hexc)]).
  - change ((word_file :: rest) ++ files2)%list with (word_file :: (rest ++ files2))%list.
    cbn [main_loop]. unfold bind. rewrite Hrun. apply IH.
  - rewrite (word_to_base64image_raises _ _ _ _ _ Honly Hraised) in Hexc.
    discriminate.
Qed.

Lemma X15_main_loop_app_witness :
  @raise_only_Exceptions (Demo.host Demo.silent) /\
  @main_loop (Demo.host Demo.silent) 2 (["a.docx"] ++ [Demo.path]) Demo.world =
  @main_loop (Demo.host Demo.silent) 2 [Demo.path]
    (snd (@main_loop (Demo.host Demo.silent) 2 ["a.docx"] Demo.world)).
Proof.
  assert (Honly : @raise_only_Exceptions (Demo.host Demo.silent)).
  { split; [|split].
    - intros argv timeout m e. discriminate.
    - intros src dst format m e [= <-]. reflexivity.
    - intros m path e. cbn [fitz_open Demo.host]. unfold Demo.open_pdf.
      destruct (m !! path) as [[|content]|]; intros [= <-]; reflexivity. }
  split; [exact Honly|].
  exact (proj2 (@X15_main_loop_app (Demo.host Demo.silent) 2 ["a.docx"] [Demo.path]
                  Demo.world Honly)).
Defined.

(** ** What the run leaves when the JPEG writer refuses the composite *)




(** ** What is not an [Exception] ends the batch *)

Lemma libreoffice_except_Exception `{E : Env} (e : Exn) :
  is_Exception e = false -> libreoffice_except e = None.
Proof. destruct e; first [discriminate | reflexivity]. Qed.

(** X17. When the LibreOffice call of an entry is left by something that is
    not an [Exception] (Ctrl-C during the conversion raises
    [KeyboardInterrupt]), neither the function nor the loop catches it: the
    loop ends there with that exception, Word COM is not tried, no report
    line is printed for the entry and the entries after it are not
    started. *)
Theorem X17_interrupt_ends_batch `{E : Env} (zoom : Zoom) (word_file : string)
    (rest : list string) (w : World) (m : gmap string node) (e : Exn) :
  conversion_reached w word_file = true ->
  libreoffice_result w word_file = (Some e, m) ->
  is_Exception e = false ->
  main_loop zoom (word_file :: rest) w =
    (Raised e,
     extend w m [Makedirs (output_folder_of word_file); start_line word_file;
                 run_event word_file]) /\
  reports [Makedirs (output_folder_of word_file); start_line word_file;
           run_event word_file] = [].
Proof.
  intros Hreached Hres Hexc.
  unfold conversion_reached in Hreached.
  apply andb_prop in Hreached as [Hfound Hfolder].
  apply negb_true_iff in Hfolder.
  split; [|reflexivity].
  cbn [main_loop]. unfold bind at 1. unfold process_file, try_except, bind.
  rewrite word_to_base64image_stages, render_document_closed, Hfound, Hfolder, Hres.
  cbn [negb]. cbv zeta. rewrite (libreoffice_except_Exception e Hexc).
  rewrite Hexc. reflexivity.
Qed.

Lemma X17_interrupt_ends_batch_witness :
  @conversion_reached (Demo.host (Demo.raises KeyboardInterrupt)) Demo.world Demo.path
    = true /\
  fst (@main_loop (Demo.host (Demo.raises KeyboardInterrupt)) 2
         [Demo.path; "documents/other.docx"] Demo.world) = Raised KeyboardInterrupt.
Proof.
  assert (H1 : @conversion_reached (Demo.host (Demo.raises KeyboardInterrupt)) Demo.world
                 Demo.path = true) by (vm_compute; reflexivity).
  split; [exact H1|].
  rewrite (proj1 (@X17_interrupt_ends_batch (Demo.host (Demo.raises KeyboardInterrupt)) 2
                    Demo.path ["documents/other.docx"] Demo.world Demo.fs_folder
                    KeyboardInterrupt H1 eq_refl eq_refl)).
  reflexivity.
Defined.

(** The script as shipped, on the example host: one file, one "完成" line
    naming the output folder. *)
Example demo_main :
  let r := @main (Demo.host (Demo.libreoffice_ok 3)) 2 Demo.world in
  fst r = Returned tt /\
  reports (log (snd r)) =
    [Print ("完成: documents/demo.docx → documents/demo/" ++ newline)%string] /\
  last (log (snd r)) =
    Some (Print ("完成: documents/demo.docx → documents/demo/" ++ newline)%string).
Proof. vm_compute. repeat split; reflexivity. Qed.
